(** * Provider handler layer of QianLu: a shallow embedding

    This development embeds the parts of the provider layer
    ([src/providers/factory.py], [src/providers/base.py] and the handlers
    under [src/providers/handlers/]) that decide how handlers are named,
    configured, how requests are retried and how responses are post-processed.

    Modelling conventions:
    - Python [str] is [string]: ASCII text as its characters, other text as
      its UTF-8 bytes (a lone surrogate decoded from a JSON [\u] escape as
      the three bytes of its code point). [str.lower], [str.isspace] and
      [str.strip] are their ASCII restrictions: the non-ASCII whitespace
      that Python's [strip] also removes is not modelled.
    - Python [dict] is an association list keeping insertion order
      ([PyDict]); assigning an existing key updates it in place, a new key is
      appended, as CPython dicts do.
    - Python exceptions are the constructors of [exc]; a function that may
      raise returns a [result]. *)

From Stdlib Require Import String Ascii List ZArith QArith Bool Lia.
Import ListNotations.
Open Scope string_scope.

(** ** Strings *)

Module PyStr.

(** [c.isspace()] for ASCII: tab..carriage return, the four separator
    controls 0x1c..0x1f and the space. It is also the class [\s] of [re]. *)
Definition isspace (c : ascii) : bool :=
  let n := nat_of_ascii c in
  ((9 <=? n) && (n <=? 13))%nat || ((28 <=? n) && (n <=? 32))%nat.

(** [c.lower()] for ASCII. *)
Definition lower_char (c : ascii) : ascii :=
  let n := nat_of_ascii c in
  if ((65 <=? n) && (n <=? 90))%nat then ascii_of_nat (n + 32) else c.

(** [c.upper()] for ASCII. *)
Definition upper_char (c : ascii) : ascii :=
  let n := nat_of_ascii c in
  if ((97 <=? n) && (n <=? 122))%nat then ascii_of_nat (n - 32) else c.

Fixpoint upper (s : string) : string :=
  match s with
  | EmptyString => EmptyString
  | String c r => String (upper_char c) (upper r)
  end.

Fixpoint lower (s : string) : string :=
  match s with
  | EmptyString => EmptyString
  | String c r => String (lower_char c) (lower r)
  end.

(** [s.replace(c, '')] for a one-character needle. *)
Fixpoint remove_char (x : ascii) (s : string) : string :=
  match s with
  | EmptyString => EmptyString
  | String c r =>
      if Ascii.eqb c x then remove_char x r else String c (remove_char x r)
  end.

(** [s.replace(x, y)] for one-character needle and replacement. *)
Fixpoint replace_char (x y : ascii) (s : string) : string :=
  match s with
  | EmptyString => EmptyString
  | String c r =>
      String (if Ascii.eqb c x then y else c) (replace_char x y r)
  end.

Fixpoint lstrip (s : string) : string :=
  match s with
  | EmptyString => EmptyString
  | String c r => if isspace c then lstrip r else s
  end.

Definition rstrip (s : string) : string :=
  string_of_list_ascii
    (rev (list_ascii_of_string (lstrip (string_of_list_ascii
      (rev (list_ascii_of_string s)))))).

(** [s.strip()] *)
Definition strip (s : string) : string := rstrip (lstrip s).

(** [s.startswith(p)] *)
Definition startswith (p s : string) : bool := String.prefix p s.

(** [needle in s] for strings: substring test. *)
Fixpoint contains (needle s : string) : bool :=
  String.prefix needle s ||
  match s with
  | EmptyString => false
  | String _ r => contains needle r
  end.

(** [s[n:]] *)
Fixpoint drop (n : nat) (s : string) : string :=
  match n, s with
  | O, _ => s
  | S _, EmptyString => EmptyString
  | S m, String _ r => drop m r
  end.

(** The text following the first occurrence of [needle] in [s], if any. *)
Fixpoint after_first (needle s : string) : option string :=
  if String.prefix needle s then Some (drop (String.length needle) s)
  else match s with
       | EmptyString => None
       | String _ r => after_first needle r
       end.

End PyStr.

(** ** [OllamaReportHandler._remove_think_tags]
    (src/providers/handlers/ollama_report_handler.py, lines 30-36)

<<
    if not text:
        return ''
    return re.sub(r"<think>.*?</think>\s*", '', text, flags=re.DOTALL).strip()
>>

    [re.sub] scans left to right; at a position where ["<think>"] starts, the
    lazy [.*?] (which with [DOTALL] also crosses newlines) extends to the
    first following ["</think>"], and the greedy [\s*] then takes all the
    whitespace after it. Where no match starts, the character is kept and the
    scan moves one position on. The fuel is the length of the text, which
    bounds the number of steps. *)
Module ThinkTags.

Definition open_tag : string := "<think>".
Definition close_tag : string := "</think>".

Fixpoint sub_think (fuel : nat) (s : string) : string :=
  match fuel with
  | O => s
  | S f =>
      match s with
      | EmptyString => EmptyString
      | String c rest =>
          if PyStr.startswith open_tag s then
            match PyStr.after_first close_tag
                    (PyStr.drop (String.length open_tag) s) with
            | Some r => sub_think f (PyStr.lstrip r)
            | None => String c (sub_think f rest)
            end
          else String c (sub_think f rest)
      end
  end.

Definition re_sub_think (text : string) : string :=
  sub_think (String.length text) text.

Definition _remove_think_tags (text : string) : string :=
  match text with
  | EmptyString => EmptyString
  | _ => PyStr.strip (re_sub_think text)
  end.

End ThinkTags.

(** ** Python dicts as insertion-ordered association lists *)
Module PyDict.

Definition dict (V : Type) := list (string * V).

Fixpoint lookup {V} (d : dict V) (k : string) : option V :=
  match d with
  | [] => None
  | (k', v) :: r => if String.eqb k k' then Some v else lookup r k
  end.

(** [d[k] = v] *)
Fixpoint insert {V} (k : string) (v : V) (d : dict V) : dict V :=
  match d with
  | [] => [(k, v)]
  | (k', v') :: r =>
      if String.eqb k k' then (k', v) :: r else (k', v') :: insert k v r
  end.

(** [{**a, **b}]: the keys of [b] are assigned over [a], in [b]'s order. *)
Definition merge {V} (a b : dict V) : dict V :=
  fold_left (fun acc kv => insert (fst kv) (snd kv) acc) b a.

Definition mem {V} (k : string) (d : dict V) : bool :=
  match lookup d k with Some _ => true | None => false end.

(** A dict value never holds a key twice. *)
Definition wf {V} (d : dict V) : Prop := NoDup (map fst d).

End PyDict.

(** ** Python values *)

(** A finite Python [float] is kept as the exact value of the decimal it
    was parsed from ([PFloat]); the claims never depend on the rounding to
    the nearest double, only on whether a value converts, overflows to an
    infinity, underflows to zero or is a NaN. [PInf true] is [-inf]. *)
Inductive pyval :=
| PNone
| PBool (b : bool)
| PInt (z : Z)
| PFloat (q : Q)
| PInf (neg : bool)
| PNaN
| PStr (s : string).

(** Decimal digits. *)
Definition digit_val (c : ascii) : option Z :=
  let n := nat_of_ascii c in
  if ((48 <=? n) && (n <=? 57))%nat then Some (Z.of_nat (n - 48)) else None.

(** Digits with single underscores between them (Python's numeric literal
    grammar), returning their value and their count. *)
Fixpoint digits_aux (acc : Z) (cnt : nat) (prev_digit : bool) (s : string)
  : option (Z * nat) :=
  match s with
  | EmptyString => if prev_digit then Some (acc, cnt) else None
  | String c r =>
      match digit_val c with
      | Some d => digits_aux (acc * 10 + d) (S cnt) true r
      | None =>
          if Ascii.eqb c "_" then
            if prev_digit then
              match r with
              | String c' _ =>
                  match digit_val c' with
                  | Some _ => digits_aux acc cnt false r
                  | None => None
                  end
              | EmptyString => None
              end
            else None
          else None
      end
  end.

Definition digits (s : string) : option (Z * nat) := digits_aux 0 0 false s.

Definition split_sign (s : string) : Z * string :=
  match s with
  | String c r =>
      if Ascii.eqb c "-" then (-1, r)%Z
      else if Ascii.eqb c "+" then (1, r)%Z else (1, s)%Z
  | EmptyString => (1, s)%Z
  end.

(** [int(s)] for a [str] argument in base 10: surrounding whitespace, an
    optional sign and decimal digits (with single underscores). [None] means
    [ValueError]. *)
Definition py_int (s : string) : option Z :=
  let t := PyStr.strip s in
  let '(sg, body) := split_sign t in
  match digits body with
  | Some (v, _) => Some (sg * v)%Z
  | None => None
  end.

(** The text before and after the first ['.'], if there is a ['.']. *)
Fixpoint split_dot (s : string) : option (string * string) :=
  match s with
  | EmptyString => None
  | String c r =>
      if Ascii.eqb c "." then Some (EmptyString, r)
      else match split_dot r with
           | Some (a, b) => Some (String c a, b)
           | None => None
           end
  end.

(** The text before and after the first [e] or [E], if there is one. *)
Fixpoint split_exp (s : string) : string * option string :=
  match s with
  | EmptyString => (EmptyString, None)
  | String c r =>
      if Ascii.eqb c "e" || Ascii.eqb c "E" then (EmptyString, Some r)
      else let '(a, b) := split_exp r in (String c a, b)
  end.

(** The significand of a float literal: [ddd], [ddd.], [.ddd] or [ddd.ddd]
    (digits with single underscores), as the integer [m] of its digits, the
    number of digits after the point and the number of all digits. *)
Definition significand (s : string) : option (Z * nat * nat) :=
  match split_dot s with
  | None => match digits s with
            | Some (v, n) => Some (v, 0%nat, n)
            | None => None
            end
  | Some (a, b) =>
      match a, b with
      | EmptyString, EmptyString => None
      | EmptyString, _ =>
          match digits b with Some (f, n) => Some (f, n, n) | None => None end
      | _, EmptyString =>
          match digits a with Some (v, n) => Some (v, 0%nat, n) | None => None end
      | _, _ =>
          match digits a, digits b with
          | Some (v, na), Some (f, n) =>
              Some ((v * 10 ^ Z.of_nat n + f)%Z, n, (na + n)%nat)
          | _, _ => None
          end
      end
  end.

(** The largest finite double plus half an ulp: from there on a decimal
    rounds to an infinity. *)
Definition dbl_overflow : Q := inject_Z (2 ^ 1024 - 2 ^ 970)%Z.

(** Half the smallest subnormal double: up to there a decimal rounds to
    zero (the tie goes to the even zero). *)
Definition dbl_underflow : Q := Qmake 1 (2 ^ 1075)%positive.

(** The double nearest to [sg * m * 10 ^ e] ([m >= 0] with [len] digits)
    as far as this model tells doubles apart: an infinity past the largest
    double, zero below the smallest, the exact value in between. Exponents
    far out of range are decided without computing [10 ^ e]. *)
Definition float_of_decimal (neg : bool) (m : Z) (len : nat) (e : Z) : pyval :=
  if Z.eqb m 0 then PFloat 0
  else if (309 <? e)%Z then PInf neg
  else if (Z.of_nat len + e <? -324)%Z then PFloat 0
  else
    let q := if (0 <=? e)%Z then inject_Z (m * 10 ^ e)%Z
             else Qmake m (Z.to_pos (10 ^ (- e))%Z) in
    if Qle_bool dbl_overflow q then PInf neg
    else if Qle_bool q dbl_underflow then PFloat 0
    else PFloat (if neg then Qopp q else q).

(** [float(s)] for a [str] argument: surrounding whitespace, an optional
    sign, then [inf], [infinity] or [nan] in any case, or a significand
    with an optional exponent [e]/[E], sign, digits. Digits are ASCII
    digits with single underscores between them. [None] means
    [ValueError]. *)
Definition py_float (s : string) : option pyval :=
  let t := PyStr.strip s in
  let '(sg, body) := split_sign t in
  let neg := (sg <? 0)%Z in
  let lb := PyStr.lower body in
  if String.eqb lb "inf" || String.eqb lb "infinity" then Some (PInf neg)
  else if String.eqb lb "nan" then Some PNaN
  else
    let '(mant, ex) := split_exp body in
    let e := match ex with
             | None => Some 0%Z
             | Some es =>
                 let '(esg, ed) := split_sign es in
                 match digits ed with Some (v, _) => Some (esg * v)%Z | None => None end
             end in
    match significand mant, e with
    | Some (m, fl, len), Some e => Some (float_of_decimal neg m len (e - Z.of_nat fl))
    | _, _ => None
    end.

(** ** Exceptions

    The classes raised along the modelled paths. The [validation] classes
    ([src/validation/error_handler.py]) are siblings under
    [BaseText2AlpacaError]; none of them is a subclass of another. *)
Inductive exc :=
| ValueError (msg : string)
| RuntimeError (msg : string)
(** [aiohttp.ClientConnectorError], an [aiohttp.ClientError] *)
| ClientConnectorError
(** any other [aiohttp.ClientError], e.g. a payload error mid-stream *)
| ClientPayloadError
(** [asyncio.TimeoutError], raised by [aiohttp.ClientTimeout] *)
| AsyncTimeoutError
(** [TypeError: C.__init__() got an unexpected keyword argument 'kw'] *)
| TypeError_kwarg (cls kw : string)
(** any other [TypeError], e.g. [in] or [[...]] on a value of the wrong type *)
| TypeError_op
(** [AttributeError], e.g. [.strip()] on a value that is not a string *)
| AttributeError
| ConfigurationError
| APIConnectionError
| APIResponseError (status : Z)
| APIResponseFormatError (raw_body : string)
| APITimeoutError
(** [APIError] with a fixed message *)
| APIError (msg : string)
(** [APIError] whose message is [prefix] followed by [str(cause)] *)
| APIErrorFrom (prefix : string) (cause : exc)
(** [tenacity.RetryError] holding the last attempt *)
| RetryError (last : exc)
(** whatever a handler class's [__init__] raises *)
| HandlerInitError.

Inductive result (A : Type) :=
| Ok (a : A)
| Raise (e : exc).
Arguments Ok {A} a.
Arguments Raise {A} e.

(** ** Provider registry ([src/providers/factory.py]) *)
Module Registry.
Import PyDict.

(** One entry of [providers_meta.json]. An absent key and an empty string
    are both falsy and are both the empty string here; a missing or
    non-list [aliases] is [[]] (as [initialize_handlers] treats it).
    [display_name] plays no role below and is omitted. *)
Record MetaEntry := {
  standard_name : string;
  handler_module_path : string;
  handler_class_name : string;
  aliases : list string;
  env_prefix : string
}.

(** A handler class: its name and whether its [__init__] raises on a
    given configuration dict. *)
Record HandlerClass := {
  hc_name : string;
  hc_init_raises : dict pyval -> bool
}.

(** A handler instance: the class it was built from and the configuration
    dict passed to that class's constructor. *)
Record Instance := {
  inst_class : string;
  inst_config : dict pyval
}.

(** The module-level state [_handlers], [_provider_aliases],
    [_provider_metadata_map] and [_initialized]. *)
Record registry := {
  r_handlers : dict HandlerClass;
  r_aliases : dict string;
  r_meta : dict MetaEntry;
  r_initialized : bool
}.

Definition empty_registry : registry :=
  {| r_handlers := []; r_aliases := []; r_meta := []; r_initialized := false |}.

(** What the process can observe: the parsed metadata file ([None] when it is
    missing, unreadable, not JSON or not a list), the importer
    ([importlib.import_module] + [getattr] + the [issubclass] check: [None]
    when any of them fails), the [.env] file as [dotenv_values] returns it
    ([None] when no file is found; a key written without [=] has value
    [None]) and [os.environ]. Both [find_dotenv] searches of the code are
    taken to find the same file, the project's [.env]. *)
Record world := {
  w_meta_file : option (list MetaEntry);
  w_import : string -> string -> option HandlerClass;
  w_dotenv : option (dict (option string));
  w_environ : dict string
}.

Definition truthy (s : string) : bool := negb (String.eqb s EmptyString).

(** [alias.lower().replace(' ', '').replace('-', '_')] *)
Definition normalize (s : string) : string :=
  PyStr.replace_char "-" "_" (PyStr.remove_char " " (PyStr.lower s)).

(** One iteration of the loop of [initialize_handlers] (lines 280-339). *)
Definition register_entry (w : world) (st : registry) (meta : MetaEntry)
  : registry :=
  let sn := standard_name meta in
  if truthy sn && truthy (handler_module_path meta)
     && truthy (handler_class_name meta) && truthy (env_prefix meta) then
    match w_import w (handler_module_path meta) (handler_class_name meta) with
    | None => st
    | Some cls =>
        {| r_handlers := insert sn cls (r_handlers st);
           r_meta := insert sn meta (r_meta st);
           r_aliases :=
             fold_left (fun al a => insert (normalize a) sn al)
               (aliases meta) (r_aliases st);
           r_initialized := r_initialized st |}
    end
  else st.

(** The entries [register_entry] adds to the registry: the four fields are
    truthy and the class imports. *)
Definition registered (w : world) (meta : MetaEntry) : bool :=
  truthy (standard_name meta) && truthy (handler_module_path meta)
  && truthy (handler_class_name meta) && truthy (env_prefix meta)
  && match w_import w (handler_module_path meta) (handler_class_name meta) with
     | Some _ => true | None => false end.

(** [initialize_handlers()] (lines 225-366). *)
Definition initialize_handlers (w : world) (st : registry) : registry :=
  if r_initialized st then st
  else
    match w_meta_file w with
    | None => empty_registry
    | Some entries =>
        let st' := fold_left (register_entry w) entries empty_registry in
        {| r_handlers := r_handlers st'; r_aliases := r_aliases st';
           r_meta := r_meta st'; r_initialized := true |}
    end.

(** [APIHandlerFactory.standardize_provider_name] (lines 65-110). *)
Definition standardize_provider_name (w : world) (st : registry)
  (provider : string) : registry * result string :=
  if String.eqb provider EmptyString then (st, Raise (ValueError "empty provider"))
  else
    let normalized := normalize provider in
    let st := if r_initialized st then st else initialize_handlers w st in
    match lookup (r_aliases st) normalized with
    | Some sn => (st, Ok sn)
    | None =>
        if mem normalized (r_handlers st) then (st, Ok normalized)
        else (st, Raise (ValueError "unknown provider"))
    end.

(** The type coercion of an environment value (lines 181-195 and
    434-445): ["true"]/["false"] in any case become booleans, a value with
    a ['.'] goes through [float], any other through [int], and a value that
    does not convert stays a string. A key without a value stays [None]. *)
Definition coerce_env_value (v : option string) : pyval :=
  match v with
  | None => PNone
  | Some s =>
      let l := PyStr.lower s in
      if String.eqb l "true" || String.eqb l "false" then
        PBool (String.eqb l "true")
      else if PyStr.contains "." s then
        match py_float s with Some f => f | None => PStr s end
      else
        match py_int s with Some z => PInt z | None => PStr s end
  end.

(** [dotenv_values(find_dotenv(raise_error_if_not_found=False))]: an empty
    dict when no file is found. *)
Definition dotenv_values (w : world) : dict (option string) :=
  match w_dotenv w with Some d => d | None => [] end.

(** [all_env_vars = {**dotenv_values(dotenv_path), **os.environ}] *)
Definition all_env_vars (w : world) : dict (option string) :=
  merge (dotenv_values w) (map (fun kv => (fst kv, Some (snd kv))) (w_environ w)).

(** The loop over [all_env_vars] keeping the keys that start with the
    prefix, each coerced. *)
Definition prefixed_config (prefix : string) (env : dict (option string))
  : dict pyval :=
  fold_left
    (fun cfg kv =>
       if PyStr.startswith prefix (fst kv)
       then insert (fst kv) (coerce_env_value (snd kv)) cfg
       else cfg)
    env [].

(** The configuration dict built for a provider: the prefixed, coerced
    variables (only when the metadata has an [env_prefix]) and then
    [config['provider_name'] = standard_name]. *)
Definition build_config (w : world) (meta : MetaEntry) (sn : string)
  : dict pyval :=
  let cfg := if truthy (env_prefix meta)
             then prefixed_config (env_prefix meta) (all_env_vars w)
             else [] in
  insert "provider_name" (PStr sn) cfg.

(** [handler_class(config)] inside [try: ... except Exception: return None]. *)
Definition instantiate (cls : HandlerClass) (cfg : dict pyval)
  : option Instance :=
  if hc_init_raises cls cfg then None
  else Some {| inst_class := hc_name cls; inst_config := cfg |}.

(** [APIHandlerFactory.get_handler] (lines 112-189). *)
Definition factory_get_handler (w : world) (st0 : registry) (provider : string)
  : registry * result (option Instance) :=
  let st := if r_initialized st0 then st0 else initialize_handlers w st0 in
  if negb (r_initialized st) then
    (st, Raise (RuntimeError "handler initialization failed"))
  else
    match standardize_provider_name w st provider with
    | (st, Raise e) => (st, Raise e)
    | (st, Ok sp) =>
        match lookup (r_handlers st) sp with
        | None => (st, Raise (ValueError "no handler class"))
        | Some cls =>
            match lookup (r_meta st) sp with
            | None => (st, Ok None)
            | Some meta => (st, Ok (instantiate cls (build_config w meta sp)))
            end
        end
    end.

(** [provider_name_or_alias.lower().replace("-", "_")], the normalisation
    of the module-level [get_handler] and of [_initialize_factory]. *)
Definition normalize_module (s : string) : string :=
  PyStr.replace_char "-" "_" (PyStr.lower s).

(** The alias loop of [_initialize_factory] (lines 621-627): an alias
    already mapped to another provider is kept (first one wins), and an
    alias equal to the standard name is not mapped. *)
Definition register_alias_first (sn : string) (al : dict string) (a : string)
  : dict string :=
  let na := normalize_module a in
  match lookup al na with
  | Some prev => if negb (String.eqb prev sn) then al
                 else if negb (String.eqb na sn) then insert na sn al else al
  | None => if negb (String.eqb na sn) then insert na sn al else al
  end.

(** One iteration of the registration loop of [_initialize_factory]
    (lines 599-634). *)
Definition register_info (w : world) (st : registry) (info : MetaEntry)
  : registry :=
  let sn := standard_name info in
  if truthy sn && truthy (handler_module_path info)
     && truthy (handler_class_name info) then
    match w_import w (handler_module_path info) (handler_class_name info) with
    | None => st
    | Some cls =>
        {| r_handlers := insert sn cls (r_handlers st);
           r_aliases := fold_left (register_alias_first sn) (aliases info)
                          (r_aliases st);
           r_meta := r_meta st;
           r_initialized := r_initialized st |}
    end
  else st.

(** [_initialize_factory()] (lines 543-638). It does nothing when the
    metadata map is non-empty; otherwise it loads the entries with a
    truthy [standard_name] into a fresh map and, if that map is not empty,
    rebinds the three module dicts and registers the handlers. It never
    touches [_initialized]. Every failure is caught and logged. *)
Definition _initialize_factory (w : world) (st : registry) : registry :=
  match r_meta st with
  | _ :: _ => st
  | [] =>
      let loaded :=
        match w_meta_file w with
        | None => []
        | Some entries =>
            fold_left (fun m e => if truthy (standard_name e)
                                  then insert (standard_name e) e m else m)
              entries []
        end in
      match loaded with
      | [] => st
      | _ :: _ =>
          fold_left (register_info w)
            (map snd loaded)
            {| r_handlers := []; r_aliases := []; r_meta := loaded;
               r_initialized := r_initialized st |}
      end
  end.

(** [next((meta for meta in _provider_metadata_map.values()
          if meta.get("standard_name") == standard_name), None)] *)
Definition find_meta (m : dict MetaEntry) (sn : string) : option MetaEntry :=
  find (fun e => String.eqb (standard_name e) sn) (map snd m).

(** The module-level [get_handler] (lines 373-461). [_project_root] is
    always set once [_initialize_factory] has run, so its check never
    fails and is not modelled. *)
Definition get_handler (w : world) (st0 : registry) (name : string)
  : registry * option Instance :=
  let st := _initialize_factory w st0 in
  let normalized := normalize_module name in
  let sn := match lookup (r_aliases st) normalized with
            | Some s => s | None => normalized end in
  match lookup (r_handlers st) sn with
  | None => (st, None)
  | Some cls =>
      match find_meta (r_meta st) sn with
      | None => (st, None)
      | Some meta => (st, instantiate cls (build_config w meta sn))
      end
  end.

(** [get_provider_metadata] (lines 505-525). *)
Definition get_provider_metadata (w : world) (st : registry) (name : string)
  : option MetaEntry :=
  let st := if r_initialized st then st else initialize_handlers w st in
  match standardize_provider_name w st name with
  | (st', Ok sn) => lookup (r_meta st') sn
  | (_, Raise _) => None
  end.

End Registry.

(** ** JSON values and [json.loads]

    [json.loads] with its defaults (the C scanner, [strict=True]): the
    standard grammar, the [\u] escape with surrogate pairs, and the
    constants [NaN], [Infinity] and [-Infinity]; [None] is
    [json.JSONDecodeError]. Numbers keep their literal text. Nesting deeper
    than the interpreter's recursion limit, where Python raises
    [RecursionError], is not modelled. *)
Module Json.

Inductive json :=
| JNull
| JBool (b : bool)
| JNum (lit : string)
| JStr (s : string)
| JArr (l : list json)
| JObj (l : list (string * json)).

Definition dquote : ascii := ascii_of_nat 34.
Definition bslash : ascii := ascii_of_nat 92.

Definition is_ws (c : ascii) : bool :=
  Ascii.eqb c " " || Ascii.eqb c (ascii_of_nat 9)
  || Ascii.eqb c (ascii_of_nat 10) || Ascii.eqb c (ascii_of_nat 13).

Fixpoint skip_ws (s : string) : string :=
  match s with
  | String c r => if is_ws c then skip_ws r else s
  | EmptyString => s
  end.

Definition is_digit (c : ascii) : bool :=
  match digit_val c with Some _ => true | None => false end.

(** Hexadecimal digits of a [\uXXXX] escape. *)
Definition hex_val (c : ascii) : option Z :=
  let n := nat_of_ascii c in
  if ((48 <=? n) && (n <=? 57))%nat then Some (Z.of_nat (n - 48))
  else if ((97 <=? n) && (n <=? 102))%nat then Some (Z.of_nat (n - 87))
  else if ((65 <=? n) && (n <=? 70))%nat then Some (Z.of_nat (n - 55))
  else None.

Definition hex4 (a b c d : ascii) : option Z :=
  match hex_val a, hex_val b, hex_val c, hex_val d with
  | Some x1, Some x2, Some x3, Some x4 =>
      Some (((x1 * 16 + x2) * 16 + x3) * 16 + x4)%Z
  | _, _, _, _ => None
  end.

Definition is_high_surrogate (cp : Z) : bool := ((55296 <=? cp) && (cp <=? 56319))%Z.
Definition is_low_surrogate (cp : Z) : bool := ((56320 <=? cp) && (cp <=? 57343))%Z.

Definition join_surrogates (hi lo : Z) : Z :=
  (65536 + (hi - 55296) * 1024 + (lo - 56320))%Z.

Definition byte_of (z : Z) : ascii := ascii_of_N (Z.to_N z).

(** The UTF-8 bytes of a code point. *)
Definition utf8 (cp : Z) : string :=
  if (cp <? 128)%Z then String (byte_of cp) EmptyString
  else if (cp <? 2048)%Z then
    String (byte_of (192 + cp / 64)) (String (byte_of (128 + cp mod 64)) EmptyString)
  else if (cp <? 65536)%Z then
    String (byte_of (224 + cp / 4096))
      (String (byte_of (128 + (cp / 64) mod 64))
         (String (byte_of (128 + cp mod 64)) EmptyString))
  else
    String (byte_of (240 + cp / 262144))
      (String (byte_of (128 + (cp / 4096) mod 64))
         (String (byte_of (128 + (cp / 64) mod 64))
            (String (byte_of (128 + cp mod 64)) EmptyString)))%Z.

Definition prepend (pre : string) (r : option (string * string))
  : option (string * string) :=
  match r with
  | Some (b, rest) => Some (pre ++ b, rest)
  | None => None
  end.

(** The body of a string literal after its opening quote, as the C scanner
    of [json] decodes it in its default strict mode. *)
Fixpoint str_body (s : string) : option (string * string) :=
  match s with
  | EmptyString => None
  | String c r =>
      if Ascii.eqb c dquote then Some (EmptyString, r)
      else if Ascii.eqb c bslash then
        match r with
        | String "u" r' =>
            match r' with
            | String h1 (String h2 (String h3 (String h4 r'')))
              =>
                match hex4 h1 h2 h3 h4 with
                | None => None
                | Some cp =>
                    if is_high_surrogate cp then
                      (* [_json.c]: a high surrogate followed by [\u] and
                         four more hex digits; a low surrogate there makes a
                         pair, anything else leaves the high one alone *)
                      match r'' with
                      | String b (String u (String l1 (String l2 (String l3 (String l4 r3)))))
                        =>
                          if Ascii.eqb b bslash && Ascii.eqb u "u" then
                            match hex4 l1 l2 l3 l4 with
                            | None => None
                            | Some lo =>
                                if is_low_surrogate lo
                                then prepend (utf8 (join_surrogates cp lo)) (str_body r3)
                                else prepend (utf8 cp) (str_body r'')
                            end
                          else prepend (utf8 cp) (str_body r'')
                      | _ => prepend (utf8 cp) (str_body r'')
                      end
                    else prepend (utf8 cp) (str_body r'')
                end
            | _ => None
            end
        | String e r' =>
            let dec :=
              if Ascii.eqb e dquote then Some dquote
              else if Ascii.eqb e bslash then Some bslash
              else if Ascii.eqb e "/" then Some "/"%char
              else if Ascii.eqb e "b" then Some (ascii_of_nat 8)
              else if Ascii.eqb e "f" then Some (ascii_of_nat 12)
              else if Ascii.eqb e "n" then Some (ascii_of_nat 10)
              else if Ascii.eqb e "r" then Some (ascii_of_nat 13)
              else if Ascii.eqb e "t" then Some (ascii_of_nat 9)
              else None in
            match dec with
            | Some d =>
                match str_body r' with
                | Some (b, rest) => Some (String d b, rest)
                | None => None
                end
            | None => None
            end
        | EmptyString => None
        end
      else if (nat_of_ascii c <? 32)%nat then None
      else match str_body r with
           | Some (b, rest) => Some (String c b, rest)
           | None => None
           end
  end.

Fixpoint span_digits (s : string) : string * string :=
  match s with
  | String c r =>
      if is_digit c then let '(a, b) := span_digits r in (String c a, b)
      else (EmptyString, s)
  | EmptyString => (EmptyString, s)
  end.

(** A JSON number: optional minus, [0] or digits not starting with [0],
    optional fraction [.digits], optional exponent [e]/[E], sign, digits. *)
Definition number (s : string) : option (string * string) :=
  let '(sg, s1) := match s with
                   | String c r => if Ascii.eqb c "-" then ("-", r) else (EmptyString, s)
                   | EmptyString => (EmptyString, s)
                   end in
  let '(ip, s2) := span_digits s1 in
  let ip_ok := match ip with
               | EmptyString => false
               | String c r => negb (Ascii.eqb c "0") || String.eqb r EmptyString
               end in
  if negb ip_ok then None else
  let '(fp, s3) := match s2 with
                   | String c r =>
                       if Ascii.eqb c "." then
                         let '(d, r') := span_digits r in
                         (Some (String c d), r')
                       else (Some EmptyString, s2)
                   | EmptyString => (Some EmptyString, s2)
                   end in
  let fp := match fp with
            | Some (String _ EmptyString) => None
            | x => x
            end in
  match fp with
  | None => None
  | Some fp =>
      let '(ex, s4) :=
        match s3 with
        | String c r =>
            if Ascii.eqb c "e" || Ascii.eqb c "E" then
              let '(esg, r1) := match r with
                                | String c' r' =>
                                    if Ascii.eqb c' "+" || Ascii.eqb c' "-"
                                    then (String c' EmptyString, r') else (EmptyString, r)
                                | EmptyString => (EmptyString, r)
                                end in
              let '(d, r2) := span_digits r1 in
              if String.eqb d EmptyString then (None, r2)
              else (Some (String c (esg ++ d)), r2)
            else (Some EmptyString, s3)
        | EmptyString => (Some EmptyString, s3)
        end in
      match ex with
      | Some ex => Some (sg ++ ip ++ fp ++ ex, s4)
      | None => None
      end
  end.

(** Recursive descent; the fuel is the length of the text, an upper bound
    on the nesting depth and on the number of elements. *)
Fixpoint value (fuel : nat) (s : string) : option (json * string) :=
  match fuel with
  | O => None
  | S f =>
      let s := skip_ws s in
      match s with
      | EmptyString => None
      | String c r =>
          if Ascii.eqb c dquote then
            match str_body r with
            | Some (b, rest) => Some (JStr b, rest)
            | None => None
            end
          else if Ascii.eqb c "[" then
            let r := skip_ws r in
            match r with
            | String "]" r' => Some (JArr [], r')
            | _ => elements f r []
            end
          else if Ascii.eqb c "{" then
            let r := skip_ws r in
            match r with
            | String "}" r' => Some (JObj [], r')
            | _ => members f r []
            end
          else if String.prefix "null" s then Some (JNull, PyStr.drop 4 s)
          else if String.prefix "true" s then Some (JBool true, PyStr.drop 4 s)
          else if String.prefix "false" s then Some (JBool false, PyStr.drop 5 s)
          (* the constants [json.loads] accepts by default, decoded by
             [float] *)
          else if String.prefix "NaN" s then Some (JNum "NaN", PyStr.drop 3 s)
          else if String.prefix "Infinity" s then Some (JNum "Infinity", PyStr.drop 8 s)
          else if String.prefix "-Infinity" s then Some (JNum "-Infinity", PyStr.drop 9 s)
          else match number s with
               | Some (lit, rest) => Some (JNum lit, rest)
               | None => None
               end
      end
  end
with elements (fuel : nat) (s : string) (acc : list json)
  : option (json * string) :=
  match fuel with
  | O => None
  | S f =>
      match value f s with
      | None => None
      | Some (v, rest) =>
          match skip_ws rest with
          | String "," r => elements f r (v :: acc)
          | String "]" r => Some (JArr (rev (v :: acc)), r)
          | _ => None
          end
      end
  end
with members (fuel : nat) (s : string) (acc : list (string * json))
  : option (json * string) :=
  match fuel with
  | O => None
  | S f =>
      match skip_ws s with
      | String q r =>
          if negb (Ascii.eqb q dquote) then None else
          match str_body r with
          | None => None
          | Some (k, rest) =>
              match skip_ws rest with
              | String ":" r1 =>
                  match value f r1 with
                  | None => None
                  | Some (v, rest2) =>
                      (* a repeated key keeps its first position and takes
                         the last value, as a Python dict does *)
                      let acc' := PyDict.insert k v acc in
                      match skip_ws rest2 with
                      | String "," r2 => members f r2 acc'
                      | String "}" r2 => Some (JObj acc', r2)
                      | _ => None
                      end
                  end
              | _ => None
              end
          end
      | _ => None
      end
  end.

Definition json_loads (s : string) : option json :=
  match value (S (String.length s)) s with
  | Some (v, rest) => if String.eqb (skip_ws rest) EmptyString then Some v else None
  | None => None
  end.

(** [{"done": True}] and friends, as the handlers build them. *)
Definition obj1 (k : string) (v : json) : json := JObj [(k, v)].

End Json.

(** ** [BaseAPIHandler.get_current_param] (src/providers/base.py, lines 29-98) *)
Module Base.
Import PyDict Registry.

(** The [param_type] argument: ['int'], ['float'], ['bool'] or anything
    else (no conversion). *)
Inductive param_type := TInt | TFloat | TBool | TNoConv.

(** [env_values.get(key)]: [None] both for an absent key and for a key
    written without a value. *)
Definition env_get (env : dict (option string)) (k : string) : option string :=
  match lookup env k with Some (Some v) => Some v | _ => None end.

Definition bool_words : list string := ["true"; "1"; "yes"; "y"; "on"].

Definition get_current_param (w : world) (st : registry) (provider_name : string)
  (param_name : string) (ty : param_type) (default_value : pyval) : pyval :=
  match get_provider_metadata w st provider_name with
  | None => default_value
  | Some meta =>
      let env_prefix := env_prefix meta in
      if negb (truthy env_prefix) then default_value else
      match w_dotenv w with
      | None => default_value
      | Some env_values =>
          let runtime_param_name := env_prefix ++ PyStr.upper param_name in
          let default_param_name :=
            env_prefix ++ "DEFAULT_" ++ PyStr.upper param_name in
          let value :=
            match env_get env_values runtime_param_name with
            | Some v => Some v
            | None => env_get env_values default_param_name
            end in
          match value with
          | None => default_value
          | Some v =>
              match ty with
              | TInt => match py_int v with
                        | Some z => PInt z | None => default_value end
              | TFloat => match py_float v with
                          | Some f => f | None => default_value end
              | TBool =>
                  PBool (existsb (String.eqb (PyStr.lower v)) bool_words)
              | TNoConv => PStr v
              end
          end
      end
  end.

End Base.

(** ** Constructing the shared error classes

    [raise C(k1=..., k2=...)] first binds the keyword arguments to
    [C.__init__]; the first keyword the signature does not have raises a
    [TypeError] instead of building the exception. The signatures are those
    of [src/validation/error_handler.py]. *)
Module Errors.

Definition init_params (cls : string) : list string :=
  if String.eqb cls "ConfigurationError" then ["message"; "details"]
  else if String.eqb cls "APIConnectionError" then ["provider_name"; "details"]
  else if String.eqb cls "APIResponseError" then
    ["provider_name"; "status_code"; "response_body"; "details"]
  else if String.eqb cls "APIResponseFormatError" then ["provider_name"; "details"]
  else if String.eqb cls "APITimeoutError" then
    ["message"; "timeout_value"; "timeout_seconds"; "provider";
     "provider_name"; "details"]
  else if String.eqb cls "APIError" then ["message"; "provider_name"; "details"]
  else [].

(** The exception that [raise cls(k1=..., k2=...)] raises, where [built] is the
    instance the constructor would build. *)
Definition construct (cls : string) (kws : list string) (built : exc) : exc :=
  match find (fun k => negb (existsb (String.eqb k) (init_params cls))) kws with
  | Some kw => TypeError_kwarg cls kw
  | None => built
  end.

End Errors.

(** ** Python truthiness of configuration values *)
Definition py_truthy (v : pyval) : bool :=
  match v with
  | PNone => false
  | PBool b => b
  | PInt z => negb (Z.eqb z 0)
  | PFloat q => negb (Qeq_bool q 0)
  | PInf _ | PNaN => true
  | PStr s => Registry.truthy s
  end.

(** ** [tenacity.retry] as used by the REST handlers

    [@retry(stop=stop_after_attempt(n), wait=..., retry=pred, reraise=True)].
    After each attempt tenacity calls [pred(retry_state)] with its
    [RetryCallState] (releases with the old calling convention passed
    [retry_state.outcome], a [Future], instead). If [pred] answers false the
    outcome is returned or raised as it is; otherwise, when the stop
    condition holds, [reraise=True] re-raises the last attempt's exception,
    and else tenacity sleeps and makes the next attempt. The waits are not
    observable here. *)
Module Tenacity.

(** What the [retry=] callable receives. *)
Inductive retry_arg :=
| RA_exception (e : exc)
| RA_retry_state (attempt_number : nat) (failed_with : option exc)
| RA_future (failed_with : option exc).

Definition outcome_exc {A} (r : result A) : option exc :=
  match r with Ok _ => None | Raise e => Some e end.

(** [reraise=True]: the last attempt's exception, or a [RetryError] when
    the last attempt returned a value the predicate rejected. *)
Definition reraise {A} (r : result A) : result A :=
  match r with
  | Raise e => Raise e
  | Ok _ => Raise (RetryError (RuntimeError "retry on a returned value"))
  end.

(** Attempt [attempt] has been made; [remaining] attempts are left before
    [stop_after_attempt] holds. Returns the number of attempts made and the
    outcome. *)
Fixpoint run {A} (pred : retry_arg -> bool) (call : nat -> result A)
  (attempt remaining : nat) : nat * result A :=
  let out := call attempt in
  if negb (pred (RA_retry_state attempt (outcome_exc out))) then (attempt, out)
  else match remaining with
       | O => (attempt, reraise out)
       | S r => run pred call (S attempt) r
       end.

(** [stop_after_attempt(n)] with [n >= 1]. *)
Definition retrying {A} (n : nat) (pred : retry_arg -> bool)
  (call : nat -> result A) : nat * result A :=
  run pred call 1 (n - 1).

End Tenacity.

(** [is_retryable_exception] (src/utils/retry.py, lines 60-75):
    [isinstance(x, (ConnectionError, TimeoutError, APIError))] with the
    built-in [ConnectionError] and [TimeoutError] and [src.utils.error_handler.APIError].
    No class of [exc] derives from the built-in [ConnectionError] (aiohttp's
    connector error is an [OSError] but not a [ConnectionError]) or from that
    [APIError]; [asyncio.TimeoutError] is the built-in [TimeoutError] since
    Python 3.11. A [RetryCallState] or a [Future] is none of these. *)
Definition is_retryable_exception (x : Tenacity.retry_arg) : bool :=
  match x with
  | Tenacity.RA_exception AsyncTimeoutError => true
  | _ => false
  end.

(** ** Python operators on decoded JSON *)
Module PyJson.
Import Json.

(** [k in v] *)
Definition contains_key (k : string) (v : json) : result bool :=
  match v with
  | JObj l => Ok (PyDict.mem k l)
  | JArr l => Ok (existsb (fun x => match x with
                                    | JStr s => String.eqb s k
                                    | _ => false end) l)
  | JStr s => Ok (PyStr.contains k s)
  | _ => Raise TypeError_op
  end.

(** [v[k]] with a string key *)
Definition getitem (v : json) (k : string) : result json :=
  match v with
  | JObj l => match PyDict.lookup l k with
              | Some x => Ok x
              | None => Raise (ValueError "KeyError")
              end
  | _ => Raise TypeError_op
  end.

Definition bind {A B} (r : result A) (f : A -> result B) : result B :=
  match r with Ok a => f a | Raise e => Raise e end.

End PyJson.

Notation "x <- r ;; f" := (PyJson.bind r (fun x => f))
  (at level 61, r at next level, right associativity).

(** ** [DeepseekAIHandler] (src/providers/handlers/deepseek_ai.py) *)
Module Deepseek.
Import PyDict Registry.

(** The attributes set by [__init__] (lines 18-39) that the modelled
    methods read. *)
Record handler := {
  provider_name : string;
  api_key : pyval;
  endpoint : pyval;
  default_model : pyval;
  default_temperature : pyval;
  default_top_p : pyval;
  default_max_tokens : pyval;
  request_timeout : pyval
}.

Definition cfg_get (cfg : dict pyval) (k : string) (d : pyval) : pyval :=
  match lookup cfg k with Some v => v | None => d end.

(** A non-string [provider_name] is not modelled: the factory always
    stores a string there. *)
Definition init (cfg : dict pyval) : handler :=
  {| provider_name := match lookup cfg "provider_name" with
                      | Some (PStr s) => s | _ => "deepseek_ai" end;
     api_key := cfg_get cfg "DEEPSEEK_API_KEY" PNone;
     endpoint := cfg_get cfg "DEEPSEEK_ENDPOINT" (PStr "https://api.deepseek.com/v1");
     default_model := cfg_get cfg "DEEPSEEK_DEFAULT_MODEL" PNone;
     default_temperature := cfg_get cfg "DEEPSEEK_TEMPERATURE" (PFloat (7 # 10));
     default_top_p := cfg_get cfg "DEEPSEEK_TOP_P" (PFloat 1);
     default_max_tokens := cfg_get cfg "DEEPSEEK_MAX_TOKENS" (PInt 2000);
     request_timeout := cfg_get cfg "DEEPSEEK_REQUEST_TIMEOUT" (PInt 30) |}.

(** [__init__] raises exactly when [self.endpoint.endswith('/')] is called
    on a truthy value that is not a string ([AttributeError]). *)
Definition init_raises (cfg : dict pyval) : bool :=
  match endpoint (init cfg) with
  | PStr _ => false
  | v => py_truthy v
  end.

Definition handler_class : HandlerClass :=
  {| hc_name := "DeepseekAIHandler"; hc_init_raises := init_raises |}.

(** What the transport does on one attempt of [session.request]. *)
Inductive http_event :=
| HConnectorError                    (* aiohttp.ClientConnectorError *)
| HTimeout                           (* asyncio.TimeoutError *)
| HClientError                       (* another aiohttp.ClientError *)
| HResponse (status : Z) (body : string).

(** One execution of the body of [_make_request] (lines 120-154).
    [self._get_headers()] is evaluated before the request is sent and
    raises [ConfigError] without an API key. *)
Definition make_request_once (h : handler) (ev : http_event) : result Json.json :=
  if negb (py_truthy (api_key h)) then Raise ConfigurationError else
  match ev with
  | HResponse status body =>
      if negb (Z.eqb status 200) then
        Raise (Errors.construct "APIResponseError"
                 ["provider_name"; "status_code"; "response_body"; "details"]
                 (APIResponseError status))
      else match Json.json_loads body with
           | Some j => Ok j
           | None =>
               Raise (Errors.construct "APIResponseFormatError"
                        ["message"; "response_body"; "provider"]
                        (APIResponseFormatError body))
           end
  | HConnectorError =>
      Raise (Errors.construct "APIConnectionError"
               ["message"; "detail"; "provider"] APIConnectionError)
  | HTimeout =>
      Raise (Errors.construct "APITimeoutError"
               ["message"; "timeout_value"; "provider"] APITimeoutError)
  | HClientError =>
      Raise (Errors.construct "APIError" ["message"; "detail"; "provider"]
               (APIErrorFrom "API client error: " ClientPayloadError))
  end.

(** [_make_request] with its decorator (lines 111-119): at most 3 attempts,
    [retry=is_retryable_exception], [reraise=True]. [transport n] is what
    happens on attempt [n]. *)
Definition _make_request (h : handler) (transport : nat -> http_event)
  : nat * result Json.json :=
  Tenacity.retrying 3 is_retryable_exception
    (fun n => make_request_once h (transport n)).

Definition valid_params : list string :=
  ["temperature"; "top_p"; "max_tokens"; "frequency_penalty";
   "presence_penalty"; "stop"].

(** The generation parameters of the request payload (lines 167-186):
    the three live parameters from [get_current_param], each with the
    handler's [default_api_params] entry as default, updated with the
    call's [kwargs]; a parameter enters the payload when it is one of
    [valid_params] and not [None]. *)
Definition payload_params (w : world) (st : registry) (h : handler)
  (kwargs : dict pyval) : dict pyval :=
  let temperature := Base.get_current_param w st (provider_name h)
                       "temperature" Base.TFloat (default_temperature h) in
  let max_tokens := Base.get_current_param w st (provider_name h)
                       "max_tokens" Base.TInt (default_max_tokens h) in
  let top_p := Base.get_current_param w st (provider_name h)
                 "top_p" Base.TFloat (default_top_p h) in
  let final_api_params :=
    merge [("temperature", temperature); ("max_tokens", max_tokens);
           ("top_p", top_p)] kwargs in
  fold_left
    (fun p kv =>
       if existsb (String.eqb (fst kv)) valid_params
          && negb (match snd kv with PNone => true | _ => false end)
       then insert (fst kv) (snd kv) p else p)
    final_api_params [].

(** The content of a decoded response (lines 194-206): the concatenated
    [message.content] of all choices, [None] when the response has no
    choices list or that concatenation is empty. *)
Definition choices_content (r : Json.json) : result (option string) :=
  has <- PyJson.contains_key "choices" r ;;
  if negb has then Ok None else
  ch <- PyJson.getitem r "choices" ;;
  match ch with
  | Json.JArr (_ :: _ as l) =>
      content <-
        fold_left
          (fun acc choice =>
             c <- acc ;;
             hm <- PyJson.contains_key "message" choice ;;
             if negb hm then Ok c else
             m <- PyJson.getitem choice "message" ;;
             hc <- PyJson.contains_key "content" m ;;
             if negb hc then Ok c else
             v <- PyJson.getitem m "content" ;;
             match v with
             | Json.JStr s => Ok (c ++ s)
             | _ => Raise TypeError_op
             end)
          l (Ok EmptyString) ;;
      if truthy content then Ok (Some (PyStr.strip content)) else Ok None
  | _ => Ok None
  end.

(** The [except] clauses of [generate_text] (lines 211-219). *)
Definition generate_text_except (e : exc) : exc :=
  match e with
  | APIError _ | APIErrorFrom _ _ => e
  | RetryError _ =>
      Errors.construct "APIError" ["detail"; "provider"]
        (APIErrorFrom "API request failed after retries: " e)
  | _ =>
      Errors.construct "APIError" ["provider_name"; "message"; "details"]
        (APIErrorFrom "Unexpected internal error: " e)
  end.

(** The JSON payload of [generate_text]: [model], the single user message
    [{"role": "user", "content": prompt}], ["stream": False] and the
    generation parameters. *)
Record request := {
  rq_model : pyval;
  rq_prompt : string;
  rq_params : dict pyval
}.

(** [generate_text] (lines 159-219). [transport rq n] is what the network
    does with payload [rq] on attempt [n]. Returns the number of HTTP
    attempts made and the outcome. *)
Definition generate_text (w : world) (st : registry) (h : handler)
  (prompt : string) (model : option string) (kwargs : dict pyval)
  (transport : request -> nat -> http_event) : nat * result string :=
  let target_model := match model with
                      | Some m => if truthy m then PStr m else default_model h
                      | None => default_model h
                      end in
  if negb (py_truthy target_model) then (0%nat, Raise ConfigurationError) else
  let rq := {| rq_model := target_model; rq_prompt := prompt;
               rq_params := payload_params w st h kwargs |} in
  let '(n, out) := _make_request h (transport rq) in
  let body :=
    r <- out ;;
    c <- choices_content r ;;
    match c with
    | Some s => Ok s
    | None => Raise (Errors.construct "APIResponseFormatError"
                       ["message"; "response_body"; "provider"]
                       (APIResponseFormatError EmptyString))
    end in
  match body with
  | Ok s => (n, Ok s)
  | Raise e => (n, Raise (generate_text_except e))
  end.

End Deepseek.

(** ** Streaming chat

    An async generator is modelled by its run: the items it yields, in order,
    and how it ends (it returns, or an exception escapes it). The consumer
    is taken to read the generator to its end. *)
Module Stream.
Import Json.

Inductive ending := Returned | Raised (e : exc).

Record run := { yielded : list json; ends : ending }.

(** What the network does: opening the request raises, or a response
    arrives with a status, its text (read only on an error status), the
    lines of [response.content] (decoded) and, if any, the exception
    raised when the next line is requested after the last one. *)
Inductive transport :=
| TOpenFails (e : exc)
| TResponse (status : Z) (lines : list string) (tail : option exc).

(** [isinstance(e, aiohttp.ClientError)] *)
Definition is_client_error (e : exc) : bool :=
  match e with ClientConnectorError | ClientPayloadError => true | _ => false end.

(** [(model or self.default_model or '').strip()] *)
Definition target_model (model : option string) (default_model : pyval)
  : result string :=
  match model with
  | Some m => if Registry.truthy m then Ok (PyStr.strip m)
              else match default_model with
                   | PStr d => Ok (PyStr.strip d)
                   | v => if py_truthy v then Raise AttributeError
                          else Ok EmptyString
                   end
  | None => match default_model with
            | PStr d => Ok (PyStr.strip d)
            | v => if py_truthy v then Raise AttributeError else Ok EmptyString
            end
  end.

(** [{"choices": [{"delta": {"content": c}}]}] *)
Definition delta_content (c : json) : json :=
  obj1 "choices" (JArr [obj1 "delta" (obj1 "content" c)]).

(** The terminal markers the handlers yield. *)
Definition status_done : json := obj1 "status" (JStr "done").
Definition done_true : json := obj1 "done" (JBool true).

(** Truthiness of a decoded JSON value; a number (its literal, or one of
    [NaN], [Infinity], [-Infinity]) is decoded as [int] or [float] does. *)
Definition json_truthy (j : json) : bool :=
  match j with
  | JNull => false
  | JBool b => b
  | JNum lit => match py_float lit with Some v => py_truthy v | None => false end
  | JStr s => Registry.truthy s
  | JArr l => match l with [] => false | _ => true end
  | JObj l => match l with [] => false | _ => true end
  end.

(** Feeding the lines of a response to a loop body: [step] returns the
    items the body yields for a line, whether it executed [break], or the
    exception it raised. The [tail] exception is raised when the loop asks
    for a line after the last one. *)
Inductive step_out := Continue (ys : list json) | Break (ys : list json).

Fixpoint feed (step : string -> result step_out) (lines : list string)
  (tail : option exc) : list json * option exc :=
  match lines with
  | [] => ([], tail)
  | l :: rest =>
      match step l with
      | Raise e => ([], Some e)
      | Ok (Break ys) => (ys, None)
      | Ok (Continue ys) =>
          let '(ys', e) := feed step rest tail in ((ys ++ ys')%list, e)
      end
  end.

(** *** [SiliconFlowHandler.stream_chat]
    (src/providers/handlers/silicon_flow.py, lines 312-458) *)
Module SiliconFlow.

(** The attributes [stream_chat] reads. *)
Record handler := { default_model : pyval; endpoint : pyval }.

(** The loop body (lines 416-430). *)
Definition line_step (line : string) : result step_out :=
  if negb (Registry.truthy line) then Ok (Continue []) else
  let line_str := PyStr.strip line in
  if negb (PyStr.startswith "data:" line_str) then Ok (Continue []) else
  let line_data := PyStr.strip (PyStr.drop 5 line_str) in
  if String.eqb line_data "[DONE]" then Ok (Break [status_done]) else
  match json_loads line_data with
  | Some chunk => Ok (Continue [chunk])
  | None => Ok (Continue [])
  end.


(** The items the loop body yields for one line. *)
Definition line_items (line : string) : list json :=
  match line_step line with
  | Ok (Continue ys) | Ok (Break ys) => ys
  | Raise _ => []
  end.

(** The [except] clauses (lines 432-454): each raises a new exception. *)
Definition on_exception (e : exc) : exc :=
  match e with
  | AsyncTimeoutError =>
      Errors.construct "APITimeoutError"
        ["message"; "provider_name"; "timeout_seconds"] APITimeoutError
  | ClientConnectorError | ClientPayloadError =>
      Errors.construct "APIConnectionError"
        ["message"; "provider_name"; "details"] APIConnectionError
  | _ =>
      Errors.construct "APIError" ["message"; "provider_name"; "details"]
        (APIErrorFrom "Unexpected streaming error: " e)
  end.

(** [get_current_param] is called for the generation parameters; it never
    raises and only shapes the payload, which the run does not observe. *)
Definition stream_chat (h : handler) (model : option string) (t : transport)
  : run :=
  match target_model model (default_model h) with
  | Raise e => {| yielded := []; ends := Raised e |}
  | Ok tm =>
    if negb (Registry.truthy tm) then
      {| yielded := [obj1 "error" (JStr "No model specified")];
         ends := Returned |}
    else if negb (py_truthy (endpoint h)) then
      {| yielded := [obj1 "error" (JStr "SiliconFlow Endpoint is not configured.")];
         ends := Returned |}
    else
      match t with
      | TOpenFails e => {| yielded := []; ends := Raised (on_exception e) |}
      | TResponse status lines tail =>
          if negb (Z.eqb status 200) then
            {| yielded := [];
               ends := Raised (on_exception
                         (Errors.construct "APIResponseError"
                            ["provider_name"; "status_code"; "response_body";
                             "details"] (APIResponseError status))) |}
          else
            let '(ys, err) := feed line_step lines tail in
            match err with
            | None => {| yielded := ys; ends := Returned |}
            | Some e => {| yielded := ys; ends := Raised (on_exception e) |}
            end
      end
  end.

End SiliconFlow.

(** *** [OllamaLocalHandler.stream_chat]
    (src/providers/handlers/ollama_local.py, lines 414-571). The messages
    are taken to be well-formed role/content dicts, so their conversion
    before the [try] raises nothing. Message texts of the error chunks are
    abbreviated. *)
Module Ollama.

Record handler := { default_model : pyval }.

(** [{"choices": [{"delta": {"role": "assistant"}}]}] *)
Definition role_chunk : json :=
  obj1 "choices" (JArr [obj1 "delta" (obj1 "role" (JStr "assistant"))]).

(** The fallback of lines 551-558: the first truthy string value of a
    non-empty dict. *)
Definition first_str_value (data : json) : list json :=
  match data with
  | JObj l =>
      if existsb (fun kv => json_truthy (snd kv)) l then
        match find (fun kv => match snd kv with
                              | JStr s => Registry.truthy s
                              | _ => false end) l with
        | Some (_, v) => [delta_content v]
        | None => []
        end
      else []
  | _ => []
  end.

(** The loop body (lines 505-565). *)
Definition line_step (line : string) : result step_out :=
  if negb (Registry.truthy line) then Ok (Continue []) else
  let line_str := PyStr.strip line in
  if negb (Registry.truthy line_str) then Ok (Continue []) else
  match json_loads line_str with
  | None => Ok (Continue [delta_content (JStr line_str)])
  | Some data =>
      he <- PyJson.contains_key "error" data ;;
      if he then
        e <- PyJson.getitem data "error" ;;
        Ok (Continue [obj1 "error" e])
      else
      hm <- PyJson.contains_key "message" data ;;
      hmc <- (if hm then
                m <- PyJson.getitem data "message" ;;
                PyJson.contains_key "content" m
              else Ok false) ;;
      if hmc then
        m <- PyJson.getitem data "message" ;;
        c <- PyJson.getitem m "content" ;;
        Ok (Continue [delta_content c])
      else
      hd <- PyJson.contains_key "done" data ;;
      hdt <- (if hd then
                d <- PyJson.getitem data "done" ;;
                Ok (json_truthy d)
              else Ok false) ;;
      if hdt then Ok (Continue [done_true])
      else Ok (Continue (first_str_value data))
  end.

(** The body from [try:] to [finally:]: the items it yields and the
    exception that leaves it, if any. [except aiohttp.ClientError] turns a
    client error into an error chunk. *)
Definition try_body (t : transport) : list json * option exc :=
  let '(ys, err) :=
    match t with
    | TOpenFails e => ([], Some e)
    | TResponse status lines tail =>
        if negb (Z.eqb status 200) then
          ([obj1 "error" (JStr "Ollama API error: HTTP status")], None)
        else feed line_step lines tail
    end in
  let ys := (role_chunk :: ys)%list in
  match err with
  | Some e =>
      if is_client_error e
      then ((ys ++ [obj1 "error" (JStr "Ollama API connection error")])%list, None)
      else (ys, Some e)
  | None => (ys, None)
  end.

(** [finally: yield {"done": True}] runs on every way out of the [try];
    an exception not handled there propagates after the marker. *)
Definition stream_chat (h : handler) (model : option string) (t : transport)
  : run :=
  match target_model model (default_model h) with
  | Raise e => {| yielded := []; ends := Raised e |}
  | Ok tm =>
      if negb (Registry.truthy tm) then
        {| yielded := []; ends := Raised ConfigurationError |}
      else
        let '(ys, err) := try_body t in
        {| yielded := (ys ++ [done_true])%list;
           ends := match err with None => Returned | Some e => Raised e end |}
  end.

End Ollama.

End Stream.

(** ** A concrete configuration

    A metadata file with two providers, an importer that finds both handler
    classes, and worlds differing in their [.env] file and [os.environ]. *)
Module Examples.
Import PyDict Registry.

Definition deepseek_meta : MetaEntry :=
  {| standard_name := "deepseek_ai";
     handler_module_path := "src.providers.handlers.deepseek_ai";
     handler_class_name := "DeepseekAIHandler";
     aliases := ["deepseek"];
     env_prefix := "DEEPSEEK_" |}.

Definition silicon_flow_meta : MetaEntry :=
  {| standard_name := "silicon_flow";
     handler_module_path := "src.providers.handlers.silicon_flow";
     handler_class_name := "SiliconFlowHandler";
     aliases := ["silicon-flow"];
     env_prefix := "SILICONFLOW_" |}.

(** [SiliconFlowHandler.__init__] does not raise on these configurations. *)
Definition silicon_flow_class : HandlerClass :=
  {| hc_name := "SiliconFlowHandler"; hc_init_raises := fun _ => false |}.

Definition import_handler (module_path class_name : string) : option HandlerClass :=
  if String.eqb class_name "DeepseekAIHandler" then Some Deepseek.handler_class
  else if String.eqb class_name "SiliconFlowHandler" then Some silicon_flow_class
  else None.

Definition mk_world (dotenv : option (dict (option string))) (environ : dict string)
  : world :=
  {| w_meta_file := Some [deepseek_meta; silicon_flow_meta];
     w_import := import_handler;
     w_dotenv := dotenv;
     w_environ := environ |}.

Definition ds_handler : Deepseek.handler :=
  Deepseek.init [("DEEPSEEK_API_KEY", PStr "sk-test");
                 ("DEEPSEEK_DEFAULT_MODEL", PStr "deepseek-chat")].

End Examples.

(** ** More string operations *)
Module PyStrExt.

(** [s.endswith(suffix)]: [suffix] is one of the suffixes of [s]. *)
Fixpoint endswith (suffix s : string) : bool :=
  String.eqb suffix s ||
  match s with
  | EmptyString => false
  | String _ r => endswith suffix r
  end.

(** [s.rstrip(x)] for a one-character argument: the trailing run of [x]
    is removed. *)
Fixpoint rstrip_char (x : ascii) (s : string) : string :=
  match s with
  | EmptyString => EmptyString
  | String c r =>
      let r' := rstrip_char x r in
      if Ascii.eqb c x && String.eqb r' EmptyString then EmptyString
      else String c r'
  end.

(** [s.replace(needle, repl)] for a non-empty [needle]: occurrences are
    replaced left to right without overlapping. Each step consumes at least
    one character, so the length of [s] is enough fuel. *)
Fixpoint replace_aux (fuel : nat) (needle repl s : string) : string :=
  match fuel with
  | O => s
  | S f =>
      match s with
      | EmptyString => EmptyString
      | String c r =>
          if String.prefix needle s
          then repl ++ replace_aux f needle repl
                         (PyStr.drop (String.length needle) s)
          else String c (replace_aux f needle repl r)
      end
  end.

Definition replace (needle repl s : string) : string :=
  replace_aux (String.length s) needle repl s.

(** [bytes.isspace()] for one byte: tab..carriage return and the space. *)
Definition bytes_isspace (c : ascii) : bool :=
  let n := nat_of_ascii c in
  ((9 <=? n) && (n <=? 13))%nat || (n =? 32)%nat.

Fixpoint bytes_lstrip (s : string) : string :=
  match s with
  | EmptyString => EmptyString
  | String c r => if bytes_isspace c then bytes_lstrip r else s
  end.

(** [b.strip()] on a [bytes] value. *)
Definition bytes_strip (s : string) : string :=
  string_of_list_ascii
    (rev (list_ascii_of_string (bytes_lstrip (string_of_list_ascii
      (rev (list_ascii_of_string (bytes_lstrip s))))))).

End PyStrExt.

(** [d.get(k, default)] *)
Module PyDictExt.

Definition get {V} (d : PyDict.dict V) (k : string) (default : V) : V :=
  match PyDict.lookup d k with Some v => v | None => default end.

End PyDictExt.

(** ** The module-level accessors of [src/providers/factory.py] *)
Module Factory.
Import PyDict Registry.

(** [get_handler_for_provider] (lines 473-491). *)
Definition get_handler_for_provider (w : world) (st0 : registry)
  (provider : string) : registry * result HandlerClass :=
  let st := if r_initialized st0 then st0 else initialize_handlers w st0 in
  match standardize_provider_name w st provider with
  | (st, Raise e) => (st, Raise e)
  | (st, Ok standard_provider) =>
      match lookup (r_handlers st) standard_provider with
      | Some cls => (st, Ok cls)
      | None => (st, Raise (ValueError "no handler class"))
      end
  end.

(** [get_all_provider_metadata] (lines 495-504):
    [list(_provider_metadata_map.values())]. *)
Definition get_all_provider_metadata (w : world) (st0 : registry)
  : registry * list MetaEntry :=
  let st := if r_initialized st0 then st0 else initialize_handlers w st0 in
  (st, map snd (r_meta st)).

End Factory.

(** ** [BaseAPIHandler.check_status] (src/providers/base.py, lines 145-188)

    [configured] is what [api_manager.is_provider_configured] answers
    ([None] when it raises, which the code turns into [False]); [models] is
    the outcome of [get_available_models()]. The message fields
    ([status_message], [connection_warning], [connection_error]) are not
    modelled. *)
Module BaseStatus.

Record status (A : Type) := {
  is_configured : bool;
  models_available : option nat;
  models_list : option (list A);
  connection_test : option string
}.

Arguments is_configured {A} _.
Arguments models_available {A} _.
Arguments models_list {A} _.
Arguments connection_test {A} _.

Definition check_status {A} (configured : option bool) (models : result (list A))
  : status A :=
  let conf := match configured with Some b => b | None => false end in
  if negb conf then
    {| is_configured := false; models_available := None; models_list := None;
       connection_test := None |}
  else
    match models with
    | Raise _ =>
        {| is_configured := true; models_available := None; models_list := None;
           connection_test := Some "error" |}
    | Ok [] =>
        {| is_configured := true; models_available := Some 0%nat;
           models_list := None; connection_test := Some "warning" |}
    | Ok l =>
        {| is_configured := true; models_available := Some (length l);
           models_list := Some (firstn 5 l); connection_test := Some "success" |}
    end.

End BaseStatus.

(** ** [DeepseekAIHandler.get_available_models]
    (src/providers/handlers/deepseek_ai.py, lines 45-100) *)
Module DeepseekModels.
Import Json.

(** The base URL (lines 52-56): [/v1] removed everywhere, trailing slashes
    removed, and the official host when the result does not end with it. *)
Definition models_base_url (endpoint : string) : string :=
  let base := PyStrExt.rstrip_char "/"
                (PyStrExt.replace "/v1" EmptyString endpoint) in
  if PyStrExt.endswith "api.deepseek.com" base then base
  else "https://api.deepseek.com".

Definition models_list_endpoint (endpoint : string) : string :=
  models_base_url endpoint ++ "/v1/models".

(** The items a [for] loop visits in a decoded JSON value: the elements of
    a list, the keys of a dict, the one-character strings of a string; any
    other value is not iterable. *)
Definition py_iter (v : json) : result (list json) :=
  match v with
  | JArr l => Ok l
  | JObj l => Ok (map (fun kv => JStr (fst kv)) l)
  | JStr s => Ok (map (fun c => JStr (String c EmptyString))
                      (list_ascii_of_string s))
  | _ => Raise TypeError_op
  end.

(** [[str(model['id']) for model in data.get('data', []) if 'id' in model]]
    with the ids kept as decoded ([str] never raises on a decoded value and
    is the identity on a string id). A [data] that is not a dict has no
    [.get]. *)
Definition id_step (acc : result (list json)) (m : json) : result (list json) :=
  out <- acc ;;
  has <- PyJson.contains_key "id" m ;;
  if has then v <- PyJson.getitem m "id" ;; Ok (out ++ [v])%list
  else Ok out.

Definition model_ids (data : json) : result (list json) :=
  match data with
  | JObj l =>
      items <- py_iter (match PyDict.lookup l "data" with
                        | Some v => v | None => JArr [] end) ;;
      fold_left id_step items (Ok [])
  | _ => Raise AttributeError
  end.

(** The method. [session_get url] is what the GET request to [url] does.
    Inside the [try]: [_get_headers()] raises [ConfigError] without an API
    key; an error status raises [APIResponseError] (a sibling of [APIError],
    so it reaches [except Exception]); every exception that reaches
    [except Exception] gives [[]]. The [except] clauses for connection
    errors, timeouts and undecodable JSON construct a new exception, and
    what that construction raises leaves the method. [.replace] on an
    endpoint that is not a string raises before the [try]. *)
Definition get_available_models (h : Deepseek.handler)
  (session_get : string -> Deepseek.http_event) : result (list json) :=
  match Deepseek.endpoint h with
  | PStr ep =>
      let url := models_list_endpoint ep in
      if negb (py_truthy (Deepseek.api_key h)) then Ok [] else
      match session_get url with
      | Deepseek.HConnectorError =>
          Raise (Errors.construct "APIConnectionError"
                   ["message"; "detail"; "provider"] APIConnectionError)
      | Deepseek.HTimeout =>
          Raise (Errors.construct "APITimeoutError"
                   ["message"; "timeout_value"; "provider"] APITimeoutError)
      | Deepseek.HClientError => Ok []
      | Deepseek.HResponse status text =>
          if negb (Z.eqb status 200) then Ok [] else
          match json_loads text with
          | None =>
              Raise (Errors.construct "APIResponseFormatError"
                       ["message"; "response_body"; "provider"]
                       (APIResponseFormatError text))
          | Some data =>
              match model_ids data with Ok l => Ok l | Raise _ => Ok [] end
          end
      end
  | _ => Raise AttributeError
  end.

End DeepseekModels.

(** ** [DeepseekAIHandler.stream_chat]
    (src/providers/handlers/deepseek_ai.py, lines 221-330) *)
Module DeepseekStream.
Import Json Stream.

(** The items the loop body yields for one line: blank lines, the
    [data: [DONE]] line and lines without the [data:] prefix are skipped
    ([continue], not [break]); a payload that does not decode is skipped. *)
Definition line_items (line : string) : list json :=
  if negb (Registry.truthy line) then [] else
  let line := PyStr.strip line in
  if negb (Registry.truthy line) || String.eqb line "data: [DONE]"
     || negb (PyStr.startswith "data:" line) then []
  else match json_loads (PyStr.strip (PyStr.drop 5 line)) with
       | Some data => [data]
       | None => []
       end.

Definition line_step (line : string) : result step_out :=
  Ok (Continue (line_items line)).

(** The [except] clauses (lines 311-330). *)
Definition on_exception (e : exc) : exc :=
  match e with
  | ClientConnectorError =>
      Errors.construct "APIConnectionError"
        ["message"; "provider_name"; "details"] APIConnectionError
  | AsyncTimeoutError =>
      Errors.construct "APITimeoutError"
        ["message"; "provider_name"; "timeout_seconds"] APITimeoutError
  | _ =>
      Errors.construct "APIError" ["message"; "provider_name"; "details"]
        (APIErrorFrom "Unexpected streaming error: " e)
  end.

(** The generator. [target_model = model or self.default_model]; the
    parameters from [get_current_param] only shape the payload.
    [self._get_headers()] is evaluated inside the [try] when the request is
    opened and raises [ConfigError] without an API key. *)
Definition stream_chat (h : Deepseek.handler) (model : option string)
  (t : transport) : run :=
  let target_model := match model with
                      | Some m => if Registry.truthy m then PStr m
                                  else Deepseek.default_model h
                      | None => Deepseek.default_model h
                      end in
  if negb (py_truthy target_model) then
    {| yielded := []; ends := Raised ConfigurationError |}
  else if negb (py_truthy (Deepseek.api_key h)) then
    {| yielded := []; ends := Raised (on_exception ConfigurationError) |}
  else
    match t with
    | TOpenFails e => {| yielded := []; ends := Raised (on_exception e) |}
    | TResponse status lines tail =>
        if negb (Z.eqb status 200) then
          {| yielded := [];
             ends := Raised (on_exception
                       (Errors.construct "APIResponseError"
                          ["provider_name"; "status_code"; "response_body";
                           "details"] (APIResponseError status))) |}
        else
          let '(ys, err) := feed line_step lines tail in
          {| yielded := ys;
             ends := match err with
                     | None => Returned
                     | Some e => Raised (on_exception e)
                     end |}
    end.

End DeepseekStream.

(** ** [OllamaLocalHandler] (src/providers/handlers/ollama_local.py) *)
Module OllamaLocal.
Import PyDict Json.

(** The attributes set by [__init__] that [chat] reads. As for the other
    handlers, a [provider_name] that is not a string is not modelled. *)
Record handler := {
  provider_name : string;
  endpoint : string;
  default_model : pyval;
  default_api_params : dict pyval;
  request_timeout : pyval
}.

(** [float(os.environ.get(k))] when the value is truthy and converts. *)
Definition env_float (environ : dict string) (k : string) : option pyval :=
  match lookup environ k with
  | Some s => if Registry.truthy s then py_float s else None
  | None => None
  end.

(** [int(os.environ.get(k))] when the value is truthy and converts. *)
Definition env_int (environ : dict string) (k : string) : option Z :=
  match lookup environ k with
  | Some s => if Registry.truthy s then py_int s else None
  | None => None
  end.

(** [__init__] (lines 21-65): [environ] is [os.environ] at construction
    time. [self.endpoint.endswith('/')] raises [AttributeError] on a
    truthy endpoint that is not a string. *)
Definition init (cfg : dict pyval) (environ : dict string) : result handler :=
  let ep := PyDictExt.get cfg "endpoint" (PStr EmptyString) in
  let ep := if py_truthy ep then ep else PStr "http://localhost:11434" in
  let p0 := [("temperature", PFloat (7 # 10)); ("top_p", PFloat 1);
             ("max_tokens", PInt 16000)] in
  let p1 := match env_float environ "OLLAMA_TEMPERATURE" with
            | Some f => insert "temperature" f p0 | None => p0 end in
  let p2 := match env_int environ "OLLAMA_MAX_TOKENS" with
            | Some z => insert "max_tokens" (PInt z) p1 | None => p1 end in
  let p3 := match env_float environ "OLLAMA_TOP_P" with
            | Some f => insert "top_p" f p2 | None => p2 end in
  match ep with
  | PStr e =>
      Ok {| provider_name := match lookup cfg "provider_name" with
                             | Some (PStr s) => s | _ => "ollama_local" end;
            endpoint := if PyStrExt.endswith "/" e
                        then PyStrExt.rstrip_char "/" e else e;
            default_model := PyDictExt.get cfg "default_model"
                               (PStr "deepseek-r1:8b");
            default_api_params := p3;
            request_timeout := PyDictExt.get cfg "request_timeout" (PInt 60) |}
  | _ => Raise AttributeError
  end.

(** A message after filtering: [{"role": role, "content": content}]. *)
Record omsg := { o_role : string; o_content : pyval }.

Definition allowed_roles : list string := ["system"; "user"; "assistant"].

(** [msg.get("role", "").lower()] *)
Definition role_of (msg : dict pyval) : result string :=
  match lookup msg "role" with
  | None => Ok EmptyString
  | Some (PStr s) => Ok (PyStr.lower s)
  | Some _ => Raise AttributeError
  end.

(** [len(content) if content else 0] in the debug message logged for a
    kept message (line 644): [len] of a truthy value that is not a [str]
    ([True], a non-zero number) raises [TypeError]. *)
Definition len_fails (content : pyval) : bool :=
  py_truthy content && negb (match content with PStr _ => true | _ => false end).

(** [_filter_messages] (lines 573-651) on a list of dict messages (the
    branch for objects that are not dicts is not modelled). *)
Definition filter_step (acc : result (list omsg)) (msg : dict pyval)
  : result (list omsg) :=
  filtered <- acc ;;
  role <- role_of msg ;;
  let content := PyDictExt.get msg "content" (PStr EmptyString) in
  if existsb (String.eqb role) allowed_roles
  then if len_fails content then Raise TypeError_op
       else Ok (filtered ++ [{| o_role := role; o_content := content |}])%list
  else Ok filtered.

Definition _filter_messages (messages : list (dict pyval)) : result (list omsg) :=
  fold_left filter_step messages (Ok []).

(** A filtered message as the dict [_filter_messages] builds. *)
Definition omsg_dict (m : omsg) : dict pyval :=
  [("role", PStr (o_role m)); ("content", o_content m)].

Definition is_none (v : pyval) : bool :=
  match v with PNone => true | _ => false end.

(** [final_params] of [chat] (lines 669-692): a copy of
    [default_api_params], [OLLAMA_TEMPERATURE] and [OLLAMA_MAX_TOKENS] of
    [os.environ] (the latter as [num_predict]), then [.update(kwargs)]. *)
Definition final_params (h : handler) (environ : dict string)
  (kwargs : dict pyval) : dict pyval :=
  let p0 := default_api_params h in
  let p1 := match env_float environ "OLLAMA_TEMPERATURE" with
            | Some f => insert "temperature" f p0 | None => p0 end in
  let p2 := match env_int environ "OLLAMA_MAX_TOKENS" with
            | Some z => insert "num_predict" (PInt z) p1 | None => p1 end in
  merge p2 kwargs.

Definition valid_options : list string :=
  ["num_keep"; "seed"; "num_predict"; "top_k"; "top_p";
   "tfs_z"; "typical_p"; "repeat_last_n"; "temperature";
   "repeat_penalty"; "presence_penalty"; "frequency_penalty";
   "mirostat"; "mirostat_tau"; "mirostat_eta"; "penalize_newline";
   "stop"; "numa"; "num_ctx"; "num_batch"; "num_gpu"; "main_gpu";
   "low_vram"; "f16_kv"; "vocab_only"; "use_mmap"; "use_mlock";
   "num_thread"].

(** The loop filling [payload["options"]] (lines 725-731). *)
Definition options_of (final : dict pyval) : dict pyval :=
  fold_left
    (fun opts kv =>
       let param := if String.eqb (fst kv) "max_tokens"
                       && negb (mem "num_predict" final)
                    then "num_predict" else fst kv in
       if existsb (String.eqb param) valid_options && negb (is_none (snd kv))
       then insert param (snd kv) opts else opts)
    final [].

Record payload := {
  p_model : string;
  p_messages : list omsg;
  p_options : dict pyval
}.

(** [msg.get("content", "")[:50]] in the logging loop (lines 702-705):
    slicing raises [TypeError] on a content that is not a string. *)
Definition preview_ok (m : omsg) : bool :=
  match o_content m with PStr _ => true | _ => false end.

(** [chat] up to the request (lines 653-734). *)
Definition chat_payload (h : handler) (environ : dict string)
  (messages : list (dict pyval)) (model : option string) (kwargs : dict pyval)
  : result payload :=
  tm <- Stream.target_model model (default_model h) ;;
  if negb (Registry.truthy tm) then Raise ConfigurationError else
  let fp := final_params h environ kwargs in
  filtered <- _filter_messages messages ;;
  let filtered := match filtered with
                  | [] => [{| o_role := "user"; o_content := PStr "Hello" |}]
                  | _ => filtered
                  end in
  if negb (forallb preview_ok filtered) then Raise TypeError_op else
  Ok {| p_model := tm; p_messages := filtered; p_options := options_of fp |}.

(** [await response.json()] on an [application/json] response: an empty
    body (after [bytes.strip]) gives [None], any other is [json.loads]. *)
Definition response_json (body : string) : option json :=
  let stripped := PyStrExt.bytes_strip body in
  if String.eqb stripped EmptyString then Some JNull else json_loads stripped.

(** One execution of the body of [_make_request] (lines 153-226) for a POST.
    An error status raises [APIResponseError] inside the [try], which only
    [except Exception] catches; [HClientError] is a client error other
    than a connector or response error. Messages are abbreviated. *)
Definition make_request_once (ev : Deepseek.http_event) : result json :=
  match ev with
  | Deepseek.HResponse status body =>
      if negb (Z.eqb status 200) then
        Raise (Errors.construct "APIError" ["message"; "provider_name"; "details"]
                 (APIErrorFrom "API request failed: "
                    (Errors.construct "APIResponseError"
                       ["provider_name"; "status_code"; "response_body"; "details"]
                       (APIResponseError status))))
      else match response_json body with
           | Some j => Ok j
           | None =>
               Raise (Errors.construct "APIResponseFormatError"
                        ["message"; "provider_name"; "response_body"]
                        (APIResponseFormatError body))
           end
  | Deepseek.HConnectorError =>
      Raise (Errors.construct "APIConnectionError"
               ["message"; "provider_name"; "details"] APIConnectionError)
  | Deepseek.HTimeout =>
      Raise (Errors.construct "APITimeoutError"
               ["message"; "provider_name"; "timeout_seconds"] APITimeoutError)
  | Deepseek.HClientError =>
      Raise (Errors.construct "APIError" ["message"; "provider_name"; "details"]
               (APIErrorFrom "API request failed: " ClientPayloadError))
  end.

(** [_make_request] with its decorator (lines 144-152): at most 3 attempts,
    [retry=is_retryable_exception], [reraise=True]. *)
Definition _make_request (transport : nat -> Deepseek.http_event)
  : nat * result json :=
  Tenacity.retrying 3 is_retryable_exception
    (fun n => make_request_once (transport n)).

(** The dict [chat] returns; [usage] is always zeros and is left out. *)
Record response := {
  rs_content : json;
  rs_model : string;
  rs_provider : string
}.

(** [chat] (lines 653-762). [transport p n] is what the network does with
    payload [p] on attempt [n]. The [APIResponseError] of an unexpected
    response has [status_code=None], shown as [0]: it is caught at once.
    [except Exception] turns every exception of the [try] into
    [APIConnectionError(self.provider_name, details=str(e))]. *)
Definition chat (h : handler) (environ : dict string)
  (messages : list (dict pyval)) (model : option string) (kwargs : dict pyval)
  (transport : payload -> nat -> Deepseek.http_event) : nat * result response :=
  match chat_payload h environ messages model kwargs with
  | Raise e => (0%nat, Raise e)
  | Ok p =>
      let '(n, out) := _make_request (transport p) in
      let body :=
        res <- out ;;
        hm <- PyJson.contains_key "message" res ;;
        hc <- (if hm then m <- PyJson.getitem res "message" ;;
                         PyJson.contains_key "content" m
               else Ok false) ;;
        if hc then
          m <- PyJson.getitem res "message" ;;
          c <- PyJson.getitem m "content" ;;
          Ok {| rs_content := c; rs_model := p_model p;
                rs_provider := provider_name h |}
        else Raise (Errors.construct "APIResponseError" ["details"]
                      (APIResponseError 0)) in
      match body with
      | Ok r => (n, Ok r)
      | Raise _ => (n, Raise APIConnectionError)
      end
  end.

End OllamaLocal.

(** ** [OllamaReportHandler.chat]
    (src/providers/handlers/ollama_report_handler.py, lines 38-150) *)
Module OllamaReport.
Import PyDict Json OllamaLocal.

(** [payload["options"]] (lines 48-68) before the emptiness test: the
    three parameters of [{**self.default_api_params, **kwargs}], with
    [num_predict] [-1] when [max_tokens] is [None], and the [None] values
    dropped. *)
Definition report_options (h : handler) (kwargs : dict pyval) : dict pyval :=
  let api_params := merge (default_api_params h) kwargs in
  let get k := match lookup api_params k with Some v => v | None => PNone end in
  let max_tokens := get "max_tokens" in
  filter (fun kv => negb (is_none (snd kv)))
    [("temperature", get "temperature");
     ("num_predict", if is_none max_tokens then PInt (-1) else max_tokens);
     ("top_p", get "top_p")].

Record report_payload := {
  rp_model : pyval;
  rp_messages : list omsg;
  rp_options : option (dict pyval)
}.

(** The payload (lines 45-70): [model or self.default_model], the filtered
    messages, and the options, deleted when empty. *)
Definition chat_payload (h : handler) (messages : list (dict pyval))
  (model : option string) (kwargs : dict pyval) : result report_payload :=
  let selected_model := match model with
                        | Some m => if Registry.truthy m then PStr m
                                    else default_model h
                        | None => default_model h
                        end in
  msgs <- _filter_messages messages ;;
  let opts := report_options h kwargs in
  Ok {| rp_model := selected_model; rp_messages := msgs;
        rp_options := match opts with [] => None | _ => Some opts end |}.

(** [self._remove_think_tags(raw_content)]: [''] for a falsy value, and
    [re.sub] raises [TypeError] on a value that is not a string. *)
Definition clean_content (raw : json) : result string :=
  if negb (Stream.json_truthy raw) then Ok EmptyString else
  match raw with
  | JStr s => Ok (ThinkTags._remove_think_tags s)
  | _ => Raise TypeError_op
  end.

(** The [created_at] block (lines 92-104): a truthy value that is not a
    string has no [.endswith]; a string that [fromisoformat] rejects is
    caught. Converting a parsed date to a timestamp is taken not to raise. *)
Definition created_at_ok (v : option json) : result unit :=
  match v with
  | Some j => if Stream.json_truthy j
              then match j with JStr _ => Ok tt | _ => Raise AttributeError end
              else Ok tt
  | None => Ok tt
  end.

(** Whether [a + b] is defined on two decoded JSON values: numbers and
    booleans, two strings, two lists. *)
Definition json_add_ok (a b : json) : bool :=
  match a, b with
  | (JNum _ | JBool _), (JNum _ | JBool _) => true
  | JStr _, JStr _ => true
  | JArr _, JArr _ => true
  | _, _ => false
  end.

(** The dict [chat] builds (lines 109-126) without [id], [created] and the
    [usage] numbers, which depend on the clock or are plain copies;
    [model] is the response's [model] when present (left) or the selected
    model (right). *)
Record report_response := {
  rr_model : json + pyval;
  rr_role : json;
  rr_content : string;
  rr_finish_reason : string
}.

(** The [try] body after the request (lines 78-142). *)
Definition response_of (selected_model : pyval) (resp : json)
  : result report_response :=
  let format_error :=
    Errors.construct "APIResponseFormatError"
      ["message"; "provider_name"; "response_body"]
      (APIResponseFormatError EmptyString) in
  match resp with
  | JObj l =>
      if negb (Stream.json_truthy resp) then Raise format_error else
      match lookup l "message" with
      | Some (JObj m) =>
          let raw_content := PyDictExt.get m "content" (JStr EmptyString) in
          let role := PyDictExt.get m "role" (JStr "assistant") in
          cleaned <- clean_content raw_content ;;
          match created_at_ok (lookup l "created_at") with
          | Raise e => Raise e
          | Ok _ =>
              let model := match lookup l "model" with
                           | Some v => inl v | None => inr selected_model end in
              let finish := if Stream.json_truthy
                                 (PyDictExt.get l "done" (JBool true))
                            then "stop" else "length" in
              if negb (json_add_ok (PyDictExt.get l "prompt_eval_count" (JNum "0"))
                                   (PyDictExt.get l "eval_count" (JNum "0")))
              then Raise TypeError_op
              else Ok {| rr_model := model; rr_role := role;
                         rr_content := cleaned; rr_finish_reason := finish |}
          end
      | _ => Raise format_error
      end
  | _ => Raise format_error
  end.

(** [chat]: [except APIError: raise] lets the [APIError]s through and
    [except Exception] wraps every other exception of the [try]. *)
Definition chat (h : handler) (messages : list (dict pyval))
  (model : option string) (kwargs : dict pyval)
  (transport : report_payload -> nat -> Deepseek.http_event)
  : nat * result report_response :=
  match chat_payload h messages model kwargs with
  | Raise e => (0%nat, Raise e)
  | Ok p =>
      let '(n, out) := _make_request (transport p) in
      match (r <- out ;; response_of (rp_model p) r) with
      | Ok r => (n, Ok r)
      | Raise (APIError _ as e) | Raise (APIErrorFrom _ _ as e) => (n, Raise e)
      | Raise e =>
          (n, Raise (Errors.construct "APIError"
                       ["message"; "provider_name"; "details"]
                       (APIErrorFrom "Ollama Report Handler chat failed: " e)))
      end
  end.

End OllamaReport.

(** ** The registry invariant kept by [initialize_handlers] *)
Module RegistryInv.
Import PyDict Registry.

(** An alias points to a handler, a metadata entry is stored under its own
    standard name, the handler and metadata maps have the same keys, and
    the metadata map holds no key twice. *)
Definition reg_inv (st : registry) : Prop :=
  (forall n s, lookup (r_aliases st) n = Some s -> mem s (r_handlers st) = true) /\
  (forall k m, lookup (r_meta st) k = Some m -> standard_name m = k) /\
  (forall k, mem k (r_handlers st) = mem k (r_meta st)) /\
  wf (r_meta st).

End RegistryInv.

(** ** Concrete handlers for the examples below *)
Module ExtraExamples.

(** An [OllamaLocalHandler] built from an empty configuration and an empty
    environment. *)
Definition ollama_handler : OllamaLocal.handler :=
  {| OllamaLocal.provider_name := "ollama_local";
     OllamaLocal.endpoint := "http://localhost:11434";
     OllamaLocal.default_model := PStr "deepseek-r1:8b";
     OllamaLocal.default_api_params :=
       [("temperature", PFloat (7 # 10)); ("top_p", PFloat 1);
        ("max_tokens", PInt 16000)];
     OllamaLocal.request_timeout := PInt 60 |}.




End ExtraExamples.

(** * Proofs *)

(** ** Dict facts *)
Module DictFacts.
Import PyDict.

Lemma lookup_insert {V} (d : dict V) k k' v :
  lookup (insert k v d) k' = if String.eqb k' k then Some v else lookup d k'.
Proof.
  induction d as [|[k0 v0] r IH]; simpl.
  - destruct (String.eqb k' k); reflexivity.
  - destruct (String.eqb k k0) eqn:E1; simpl.
    + apply String.eqb_eq in E1; subst k0.
      destruct (String.eqb k' k); reflexivity.
    + rewrite IH. destruct (String.eqb k' k0) eqn:E2; [|reflexivity].
      apply String.eqb_eq in E2; subst k0.
      destruct (String.eqb k' k) eqn:E3; [|reflexivity].
      apply String.eqb_eq in E3; subst k.
      rewrite String.eqb_refl in E1; discriminate.
Qed.

Lemma lookup_app {V} (l1 l2 : dict V) k :
  lookup (l1 ++ l2)%list k =
  match lookup l1 k with Some v => Some v | None => lookup l2 k end.
Proof.
  induction l1 as [|[k0 v0] r IH]; simpl; [reflexivity|].
  destruct (String.eqb k k0); [reflexivity|exact IH].
Qed.

Lemma lookup_fold_insert {V} (b a : dict V) k :
  lookup (fold_left (fun acc kv => insert (fst kv) (snd kv) acc) b a) k =
  match lookup (rev b) k with Some v => Some v | None => lookup a k end.
Proof.
  revert a. induction b as [|[k0 v0] r IH]; intros a; simpl; [reflexivity|].
  rewrite IH, lookup_insert, lookup_app. simpl.
  destruct (lookup (rev r) k); [reflexivity|].
  destruct (String.eqb k k0); reflexivity.
Qed.

Lemma lookup_None_notin {V} (d : dict V) k :
  ~ In k (map fst d) -> lookup d k = None.
Proof.
  induction d as [|[k0 v0] r IH]; simpl; intros H; [reflexivity|].
  destruct (String.eqb k k0) eqn:E.
  - apply String.eqb_eq in E; subst; exfalso; apply H; left; reflexivity.
  - apply IH; intros Hin; apply H; right; exact Hin.
Qed.

Lemma lookup_rev_wf {V} (d : dict V) k : wf d -> lookup (rev d) k = lookup d k.
Proof.
  unfold wf. induction d as [|[k0 v0] r IH]; simpl; intros H; [reflexivity|].
  inversion H as [|? ? Hn Hr]; subst.
  rewrite lookup_app, IH by exact Hr. simpl.
  destruct (String.eqb k k0) eqn:E.
  - apply String.eqb_eq in E; subst. rewrite lookup_None_notin by exact Hn.
    reflexivity.
  - destruct (lookup r k); reflexivity.
Qed.

Lemma lookup_merge {V} (a b : dict V) k :
  wf b ->
  lookup (merge a b) k =
  match lookup b k with Some v => Some v | None => lookup a k end.
Proof.
  intros Hb. unfold merge. rewrite lookup_fold_insert, lookup_rev_wf by exact Hb.
  reflexivity.
Qed.


Lemma in_keys_insert {V} (d : dict V) k v x :
  In x (map fst (insert k v d)) <-> x = k \/ In x (map fst d).
Proof.
  induction d as [|[k0 v0] r IH]; simpl.
  - split; [intros [H|[]]; left; congruence | intros [H|[]]; left; congruence].
  - destruct (String.eqb k k0) eqn:E; simpl.
    + apply String.eqb_eq in E; subst k0. split; [intros [H|H]; auto|].
      intros [H|[H|H]]; auto.
    + rewrite IH. tauto.
Qed.

Lemma wf_insert {V} (d : dict V) k v : wf d -> wf (insert k v d).
Proof.
  unfold wf. induction d as [|[k0 v0] r IH]; simpl; intros H.
  - constructor; [intros []|constructor].
  - inversion H as [|? ? Hn Hr]; subst.
    destruct (String.eqb k k0) eqn:E; simpl.
    + exact H.
    + constructor; [|exact (IH Hr)].
      rewrite in_keys_insert. intros [Hk|Hk]; [|exact (Hn Hk)].
      subst k0. rewrite String.eqb_refl in E. discriminate.
Qed.





End DictFacts.

(** ** Registry facts *)
Module RegistryFacts.
Import PyDict Registry DictFacts.


Lemma lookup_fold_aliases (sn n : string) (l : list string) (al : dict string) :
  lookup (fold_left (fun al a => insert (normalize a) sn al) l al) n =
  if existsb (fun a => String.eqb (normalize a) n) l then Some sn
  else lookup al n.
Proof.
  revert al. induction l as [|a r IH]; intros al; simpl; [reflexivity|].
  rewrite IH, lookup_insert, (String.eqb_sym n (normalize a)).
  destruct (existsb _ r), (String.eqb (normalize a) n); reflexivity.
Qed.


Lemma register_entry_handlers w st e k :
  mem k (r_handlers (register_entry w st e)) =
  (registered w e && String.eqb k (standard_name e)) || mem k (r_handlers st).
Proof.
  unfold register_entry, registered, mem. cbv zeta.
  destruct (truthy (standard_name e) && truthy (handler_module_path e)
            && truthy (handler_class_name e) && truthy (env_prefix e));
    simpl; [|reflexivity].
  destruct (w_import w (handler_module_path e) (handler_class_name e));
    simpl; [|reflexivity].
  rewrite lookup_insert. destruct (String.eqb k (standard_name e)); reflexivity.
Qed.



Lemma fold_handlers w es st0 k :
  mem k (r_handlers (fold_left (register_entry w) es st0)) =
  existsb (fun e => registered w e && String.eqb k (standard_name e)) es
  || mem k (r_handlers st0).
Proof.
  revert st0. induction es as [|e r IH]; intros st0; simpl; [reflexivity|].
  rewrite IH, register_entry_handlers.
  destruct (existsb _ r), (registered w e && _), (mem k (r_handlers st0));
    reflexivity.
Qed.

Lemma standardize_state w st p :
  r_initialized st = true -> fst (standardize_provider_name w st p) = st.
Proof.
  intros Hi. unfold standardize_provider_name.
  destruct (String.eqb p EmptyString); [reflexivity|].
  cbv zeta. rewrite Hi.
  destruct (lookup (r_aliases st) (normalize p)); [reflexivity|].
  destruct (mem (normalize p) (r_handlers st)); reflexivity.
Qed.







End RegistryFacts.

(** ** Parameter lookup and retry facts *)
Module HandlerFacts.
Import PyDict Registry Base.

Lemma get_current_param_found w st pn param ty d meta env :
  get_provider_metadata w st pn = Some meta ->
  truthy (env_prefix meta) = true -> w_dotenv w = Some env ->
  get_current_param w st pn param ty d =
  match match env_get env (env_prefix meta ++ PyStr.upper param) with
        | Some v => Some v
        | None => env_get env (env_prefix meta ++ "DEFAULT_" ++ PyStr.upper param)
        end with
  | None => d
  | Some v =>
      match ty with
      | TInt => match py_int v with Some z => PInt z | None => d end
      | TFloat => match py_float v with Some f => f | None => d end
      | TBool => PBool (existsb (String.eqb (PyStr.lower v)) bool_words)
      | TNoConv => PStr v
      end
  end.
Proof.
  intros Hm Hp Hd. unfold get_current_param. rewrite Hm. cbv zeta.
  rewrite Hp, Hd. reflexivity.
Qed.

(** The predicate never accepts a [RetryCallState]: one attempt is made. *)
Lemma retrying_is_retryable_once {A} (n : nat) (call : nat -> result A) :
  Tenacity.retrying n is_retryable_exception call = (1%nat, call 1%nat).
Proof. unfold Tenacity.retrying. destruct (n - 1)%nat; reflexivity. Qed.

End HandlerFacts.

(** * The claims *)

(** ** C7: think-tag removal *)

(** C7 (code behaviour at the failing input): [_remove_think_tags] removes a
    closed [<think>...</think>] block, so the first example gives exactly
    ["Actual answer"]; but a [<think>] with no closing tag is not matched by
    the pattern, and the text comes back unchanged instead of empty. *)
Theorem remove_think_tags_unclosed_kept :
  ThinkTags._remove_think_tags "<think>internal reasoning</think>Actual answer"
    = "Actual answer" /\
  ThinkTags._remove_think_tags "<think>unclosed reasoning continues forever"
    = "<think>unclosed reasoning continues forever".
Proof. split; vm_compute; reflexivity. Qed.

(** ** C2: the retry bound *)

(** C2 (code behaviour at the failing input): with an API key and a model,
    a transport that fails with [ClientConnectorError] on every attempt makes
    [_make_request] stop after ONE attempt, because the [except] clause's
    [APIConnectionError(message=..., detail=..., provider=...)] raises a
    [TypeError] and tenacity's predicate, called with a [RetryCallState], is
    false; [generate_text] then raises [APIError] with the message
    ['Unexpected internal error: '] followed by that [TypeError]. *)
Theorem generate_text_connection_error_one_attempt
  (w : Registry.world) (st : Registry.registry) (h : Deepseek.handler)
  (prompt m : string) (kwargs : PyDict.dict pyval) :
  py_truthy (Deepseek.api_key h) = true -> Registry.truthy m = true ->
  Deepseek._make_request h (fun _ => Deepseek.HConnectorError)
    = (1%nat, Raise (TypeError_kwarg "APIConnectionError" "message")) /\
  Deepseek.generate_text w st h prompt (Some m) kwargs
    (fun _ _ => Deepseek.HConnectorError)
    = (1%nat, Raise (APIErrorFrom "Unexpected internal error: "
                       (TypeError_kwarg "APIConnectionError" "message"))).
Proof.
  intros Hk Hm.
  assert (Hr : Deepseek._make_request h (fun _ => Deepseek.HConnectorError)
               = (1%nat, Raise (TypeError_kwarg "APIConnectionError" "message"))).
  { unfold Deepseek._make_request. rewrite HandlerFacts.retrying_is_retryable_once.
    unfold Deepseek.make_request_once. rewrite Hk. reflexivity. }
  split; [exact Hr|].
  unfold Deepseek.generate_text. rewrite Hm. simpl py_truthy. rewrite Hm.
  cbv zeta. rewrite Hr. reflexivity.
Qed.

Lemma generate_text_connection_error_one_attempt_witness :
  Deepseek.generate_text (Examples.mk_world None []) Registry.empty_registry
    Examples.ds_handler "hello" (Some "deepseek-chat") []
    (fun _ _ => Deepseek.HConnectorError)
  = (1%nat, Raise (APIErrorFrom "Unexpected internal error: "
                     (TypeError_kwarg "APIConnectionError" "message"))).
Proof.
  apply (generate_text_connection_error_one_attempt
           (Examples.mk_world None []) Registry.empty_registry
           Examples.ds_handler "hello" "deepseek-chat" []);
    vm_compute; reflexivity.
Defined.

(** ** C8: a 200 response whose body is not JSON *)



(** ** C10: boolean parameters *)

(** C10: for a provider whose metadata has an [env_prefix], [get_current_param]
    with [param_type='bool'] returns the default when no [.env] file is found,
    and otherwise, when [{prefix}NAME] has a value (or, failing that,
    [{prefix}DEFAULT_NAME] has one), [True] exactly when that value lowercased
    is one of ['true'], ['1'], ['yes'], ['y'], ['on'] and [False] for any other
    string; the default only when neither key has a value. *)
Theorem get_current_param_bool_total
  (w : Registry.world) (st : Registry.registry) (provider_name param_name : string)
  (default_value : pyval) (meta : Registry.MetaEntry)
  (env : PyDict.dict (option string)) :
  Registry.get_provider_metadata w st provider_name = Some meta ->
  Registry.truthy (Registry.env_prefix meta) = true ->
  (Registry.w_dotenv w = None ->
   Base.get_current_param w st provider_name param_name Base.TBool default_value
     = default_value) /\
  (Registry.w_dotenv w = Some env ->
   Base.get_current_param w st provider_name param_name Base.TBool default_value
   = match Base.env_get env (Registry.env_prefix meta ++ PyStr.upper param_name),
           Base.env_get env
             (Registry.env_prefix meta ++ "DEFAULT_" ++ PyStr.upper param_name) with
     | Some v, _ | None, Some v =>
         PBool (existsb (String.eqb (PyStr.lower v)) Base.bool_words)
     | None, None => default_value
     end).
Proof.
  intros Hm Hp. split.
  - intros Hd. unfold Base.get_current_param. rewrite Hm. cbv zeta.
    rewrite Hp, Hd. reflexivity.
  - intros Hd. rewrite (HandlerFacts.get_current_param_found _ _ _ _ _ _ meta env Hm Hp Hd).
    destruct (Base.env_get env _); [reflexivity|].
    destruct (Base.env_get env _); reflexivity.
Qed.

Lemma get_current_param_bool_total_witness :
  Base.get_current_param
    (Examples.mk_world (Some [("DEEPSEEK_STREAM", Some "Yes")]) [])
    (Registry.initialize_handlers
       (Examples.mk_world (Some [("DEEPSEEK_STREAM", Some "Yes")]) [])
       Registry.empty_registry)
    "deepseek_ai" "stream" Base.TBool (PBool false)
  = PBool true.
Proof.
  destruct (get_current_param_bool_total
              (Examples.mk_world (Some [("DEEPSEEK_STREAM", Some "Yes")]) [])
              (Registry.initialize_handlers
                 (Examples.mk_world (Some [("DEEPSEEK_STREAM", Some "Yes")]) [])
                 Registry.empty_registry)
              "deepseek_ai" "stream" (PBool false) Examples.deepseek_meta
              [("DEEPSEEK_STREAM", Some "Yes")])
    as [_ H]; [vm_compute; reflexivity | vm_compute; reflexivity |].
  rewrite H by reflexivity. vm_compute. reflexivity.
Defined.

(** ** C5: parameter precedence *)




(** ** C3: the environment sources of a handler's configuration *)




(** ** C6: configuration rebuilt on every call *)




(** ** C9: what the two [get_handler]s return on failure *)

(** C9 (amended): the module-level [get_handler] returns [None] when the
    resolved name has no handler class and when the class's constructor
    raises. [APIHandlerFactory.get_handler] (on an initialized registry)
    also answers [None] when the constructor raises, but for a name
    [standardize_provider_name] rejects it raises that error. *)
Theorem get_handler_failure_results (w : Registry.world) (st : Registry.registry)
  (name : string) :
  let st' := Registry._initialize_factory w st in
  let sn := match PyDict.lookup (Registry.r_aliases st') (Registry.normalize_module name) with
            | Some s => s | None => Registry.normalize_module name end in
  (PyDict.lookup (Registry.r_handlers st') sn = None ->
   snd (Registry.get_handler w st name) = None) /\
  (forall cls meta,
     PyDict.lookup (Registry.r_handlers st') sn = Some cls ->
     Registry.find_meta (Registry.r_meta st') sn = Some meta ->
     Registry.hc_init_raises cls (Registry.build_config w meta sn) = true ->
     snd (Registry.get_handler w st name) = None) /\
  (Registry.r_initialized st = true -> forall e,
     snd (Registry.standardize_provider_name w st name) = Raise e ->
     snd (Registry.factory_get_handler w st name) = Raise e) /\
  (Registry.r_initialized st = true -> forall sp cls meta,
     snd (Registry.standardize_provider_name w st name) = Ok sp ->
     PyDict.lookup (Registry.r_handlers st) sp = Some cls ->
     PyDict.lookup (Registry.r_meta st) sp = Some meta ->
     Registry.hc_init_raises cls (Registry.build_config w meta sp) = true ->
     snd (Registry.factory_get_handler w st name) = Ok None).
Proof.
  cbv zeta. split; [|split; [|split]].
  - intros L. unfold Registry.get_handler. cbv zeta. rewrite L. reflexivity.
  - intros cls meta L F R. unfold Registry.get_handler. cbv zeta.
    rewrite L, F. unfold Registry.instantiate. rewrite R. reflexivity.
  - intros Hi e He. unfold Registry.factory_get_handler. rewrite Hi. simpl negb.
    cbv iota.
    pose proof (RegistryFacts.standardize_state w st name Hi) as Hs.
    destruct (Registry.standardize_provider_name w st name) as [s r].
    simpl in Hs, He. subst s r. rewrite Hi. reflexivity.
  - intros Hi sp cls meta He L M R. unfold Registry.factory_get_handler.
    rewrite Hi. simpl negb. cbv iota.
    pose proof (RegistryFacts.standardize_state w st name Hi) as Hs.
    destruct (Registry.standardize_provider_name w st name) as [s r].
    simpl in Hs, He. subst s r. rewrite Hi. simpl. rewrite L, M.
    unfold Registry.instantiate. rewrite R. reflexivity.
Qed.

Lemma get_handler_failure_results_witness :
  snd (Registry.get_handler (Examples.mk_world None []) Registry.empty_registry
         "totally-unknown-vendor") = None /\
  snd (Registry.factory_get_handler (Examples.mk_world None [])
         (Registry.initialize_handlers (Examples.mk_world None []) Registry.empty_registry)
         "totally-unknown-vendor") = Raise (ValueError "unknown provider").
Proof.
  split.
  - apply (proj1 (get_handler_failure_results (Examples.mk_world None [])
                    Registry.empty_registry "totally-unknown-vendor")).
    vm_compute. reflexivity.
  - apply (proj1 (proj2 (proj2 (get_handler_failure_results (Examples.mk_world None [])
             (Registry.initialize_handlers (Examples.mk_world None [])
                Registry.empty_registry) "totally-unknown-vendor"))));
      vm_compute; reflexivity.
Defined.

(** C9, counterexample: [APIHandlerFactory.get_handler] raises [ValueError]
    for [totally-unknown-vendor] instead of returning [None]. *)
Lemma factory_get_handler_unknown_counterexample :
  snd (Registry.factory_get_handler (Examples.mk_world None [])
         Registry.empty_registry "totally-unknown-vendor")
  = Raise (ValueError "unknown provider").
Proof. vm_compute. reflexivity. Qed.

(** ** C4: name resolution *)




Module StreamFacts.
Import Json Stream.





End StreamFacts.

(** ** C1: how streams end *)




(** ** The registry built by [initialize_handlers] *)
Module FactoryFacts.
Import PyDict Registry DictFacts RegistryFacts RegistryInv.

Lemma mem_insert {V} (d : dict V) k k' v :
  mem k' (insert k v d) = String.eqb k' k || mem k' d.
Proof.
  unfold mem. rewrite lookup_insert. destruct (String.eqb k' k); reflexivity.
Qed.

Lemma mem_lookup {V} (d : dict V) k :
  mem k d = true -> exists v, lookup d k = Some v.
Proof.
  unfold mem. destruct (lookup d k) as [v|]; [eauto|discriminate].
Qed.

Lemma lookup_mem {V} (d : dict V) k v :
  lookup d k = Some v -> mem k d = true.
Proof. unfold mem. intros ->. reflexivity. Qed.


Lemma lookup_in_wf {V} (d : dict V) k v :
  wf d -> In (k, v) d -> lookup d k = Some v.
Proof.
  unfold wf. induction d as [|[k' v'] r IH]; simpl; [tauto|].
  intros Hw [E|H]; inversion Hw as [|? ? Hn Hr]; subst.
  - injection E as <- <-. rewrite String.eqb_refl. reflexivity.
  - destruct (String.eqb k k') eqn:E.
    + apply String.eqb_eq in E. subst k'.
      exfalso. apply Hn. change k with (fst (k, v)). apply in_map, H.
    + apply IH; assumption.
Qed.

Lemma lookup_in {V} (d : dict V) k v :
  lookup d k = Some v -> In (k, v) d.
Proof.
  induction d as [|[k' v'] r IH]; simpl; [discriminate|].
  destruct (String.eqb k k') eqn:E.
  - apply String.eqb_eq in E. subst. intros H. injection H as <-. left; reflexivity.
  - intros H. right. apply IH, H.
Qed.

Lemma reg_inv_empty : reg_inv empty_registry.
Proof.
  unfold reg_inv. simpl. repeat split; try discriminate. constructor.
Qed.

Lemma register_entry_inv w st e :
  reg_inv st -> reg_inv (register_entry w st e).
Proof.
  intros (H1 & H2 & H3 & H4). unfold register_entry. cbv zeta.
  destruct (truthy (standard_name e) && truthy (handler_module_path e)
            && truthy (handler_class_name e) && truthy (env_prefix e));
    [|repeat split; assumption].
  destruct (w_import w (handler_module_path e) (handler_class_name e)) as [cls|];
    [|repeat split; assumption].
  unfold reg_inv; simpl. split; [|split; [|split]].
  - intros n s H. rewrite lookup_fold_aliases in H. rewrite mem_insert.
    destruct (existsb _ _).
    + injection H as <-. rewrite String.eqb_refl. reflexivity.
    + rewrite (H1 _ _ H), orb_true_r. reflexivity.
  - intros k m H. rewrite lookup_insert in H.
    destruct (String.eqb k (standard_name e)) eqn:E.
    + injection H as <-. symmetry. apply String.eqb_eq, E.
    + exact (H2 _ _ H).
  - intros k. rewrite !mem_insert, H3. reflexivity.
  - apply wf_insert, H4.
Qed.

Lemma fold_register_inv w es st :
  reg_inv st -> reg_inv (fold_left (register_entry w) es st).
Proof.
  revert st. induction es as [|e es IH]; simpl; intros st H; [exact H|].
  apply IH, register_entry_inv, H.
Qed.

Lemma init_inv w st0 :
  r_initialized st0 = false -> reg_inv (initialize_handlers w st0).
Proof.
  intros Hi. unfold initialize_handlers. rewrite Hi.
  destruct (w_meta_file w) as [es|]; [|exact reg_inv_empty].
  destruct (fold_register_inv w es _ reg_inv_empty) as (H1 & H2 & H3 & H4).
  unfold reg_inv; simpl. auto.
Qed.

(** Where a metadata entry of the registry comes from. *)
Lemma fold_meta_origin w es st0 k m :
  lookup (r_meta (fold_left (register_entry w) es st0)) k = Some m ->
  (In m es /\ registered w m = true) \/ lookup (r_meta st0) k = Some m.
Proof.
  revert st0. induction es as [|e es IH]; simpl; intros st0 H; [right; exact H|].
  destruct (IH _ H) as [[Hin Hr]|H'].
  - left. split; [right; exact Hin|exact Hr].
  - revert H'. unfold register_entry, registered. cbv zeta.
    destruct (truthy (standard_name e) && truthy (handler_module_path e)
              && truthy (handler_class_name e) && truthy (env_prefix e)) eqn:T;
      [|intros H'; right; exact H'].
    destruct (w_import w (handler_module_path e) (handler_class_name e)) as [cls|] eqn:I;
      [|intros H'; right; exact H'].
    simpl. rewrite lookup_insert. destruct (String.eqb k (standard_name e)).
    + intros E. injection E as <-. left. split; [left; reflexivity|].
      rewrite T, I. reflexivity.
    + intros H'. right. exact H'.
Qed.

Lemma init_meta_origin w st0 k m :
  r_initialized st0 = false ->
  lookup (r_meta (initialize_handlers w st0)) k = Some m ->
  registered w m = true /\ exists es, w_meta_file w = Some es /\ In m es.
Proof.
  intros Hi. unfold initialize_handlers. rewrite Hi.
  destruct (w_meta_file w) as [es|]; simpl; [|discriminate].
  intros H. destruct (fold_meta_origin w es empty_registry k m H) as [[Hin Hr]|H'].
  - split; [exact Hr|exists es; split; [reflexivity|exact Hin]].
  - discriminate H'.
Qed.

(** [initialize_handlers] on an uninitialised registry does not depend on
    it, and a registry it built is taken as it is by the lookups. *)
Lemma init_reinit w st0 :
  r_initialized st0 = false ->
  (if r_initialized (initialize_handlers w st0) then initialize_handlers w st0
   else initialize_handlers w (initialize_handlers w st0))
  = initialize_handlers w st0.
Proof.
  intros Hi. unfold initialize_handlers. rewrite Hi.
  destruct (w_meta_file w) as [es|]; simpl; reflexivity.
Qed.

Lemma standardize_fresh w st0 p :
  r_initialized st0 = false ->
  standardize_provider_name w (initialize_handlers w st0) p =
  (initialize_handlers w st0,
   if String.eqb p EmptyString then Raise (ValueError "empty provider") else
   match lookup (r_aliases (initialize_handlers w st0)) (normalize p) with
   | Some sn => Ok sn
   | None => if mem (normalize p) (r_handlers (initialize_handlers w st0))
             then Ok (normalize p) else Raise (ValueError "unknown provider")
   end).
Proof.
  intros Hi. unfold standardize_provider_name at 1.
  destruct (String.eqb p EmptyString); [reflexivity|]. cbv zeta.
  rewrite (init_reinit w st0 Hi).
  destruct (lookup _ (normalize p)); [reflexivity|].
  destruct (mem _ _); reflexivity.
Qed.

Lemma standardize_fresh_errors w st0 p e :
  r_initialized st0 = false ->
  snd (standardize_provider_name w (initialize_handlers w st0) p) = Raise e ->
  e = ValueError "empty provider" \/ e = ValueError "unknown provider".
Proof.
  intros Hi. rewrite (standardize_fresh w st0 p Hi). simpl.
  destruct (String.eqb p EmptyString); [intros H; injection H as <-; auto|].
  destruct (lookup _ (normalize p)); [discriminate|].
  destruct (mem _ _); [discriminate|]. intros H; injection H as <-; auto.
Qed.

Lemma standardize_fresh_mem w st0 p sp :
  r_initialized st0 = false ->
  snd (standardize_provider_name w (initialize_handlers w st0) p) = Ok sp ->
  mem sp (r_handlers (initialize_handlers w st0)) = true.
Proof.
  intros Hi. destruct (init_inv w st0 Hi) as (H1 & _ & _ & _).
  rewrite (standardize_fresh w st0 p Hi). simpl.
  destruct (String.eqb p EmptyString); [discriminate|].
  destruct (lookup _ (normalize p)) as [s|] eqn:L.
  - intros E. injection E as <-. exact (H1 _ _ L).
  - destruct (mem _ _) eqn:Mm; [|discriminate]. intros E. injection E as <-. exact Mm.
Qed.

Lemma get_handler_for_provider_fresh w st0 p :
  r_initialized st0 = false ->
  Factory.get_handler_for_provider w st0 p =
  (initialize_handlers w st0,
   match snd (standardize_provider_name w (initialize_handlers w st0) p) with
   | Raise e => Raise e
   | Ok sp => match lookup (r_handlers (initialize_handlers w st0)) sp with
              | Some cls => Ok cls
              | None => Raise (ValueError "no handler class")
              end
   end).
Proof.
  intros Hi. unfold Factory.get_handler_for_provider. rewrite Hi.
  rewrite (standardize_fresh w st0 p Hi). simpl.
  destruct (if String.eqb p EmptyString then _ else _); [|reflexivity].
  destruct (lookup _ _); reflexivity.
Qed.







(** The keys of a [prefixed_config] all start with the prefix. *)
Lemma prefixed_config_keys prefix env k v :
  lookup (prefixed_config prefix env) k = Some v -> PyStr.startswith prefix k = true.
Proof.
  unfold prefixed_config.
  assert (G : forall acc, (forall v', lookup acc k = Some v' ->
                                      PyStr.startswith prefix k = true) ->
    lookup (fold_left (fun cfg kv => if PyStr.startswith prefix (fst kv)
                                      then insert (fst kv) (coerce_env_value (snd kv)) cfg
                                      else cfg) env acc) k = Some v ->
    PyStr.startswith prefix k = true).
  { induction env as [|[k' x] env IH]; simpl; intros acc Hacc.
    - apply Hacc.
    - apply IH. destruct (PyStr.startswith prefix k') eqn:S; [|exact Hacc].
      intros v'. rewrite lookup_insert. destruct (String.eqb k k') eqn:E.
      + apply String.eqb_eq in E. subst. intros _. exact S.
      + apply Hacc. }
  apply G. discriminate.
Qed.

End FactoryFacts.
(** ** String facts *)
Module StrFacts.

Lemma rstrip_char_slash_end s :
  PyStrExt.endswith "/" (PyStrExt.rstrip_char "/" s) = false.
Proof.
  induction s as [|c r IH]; [reflexivity|].
  cbn [PyStrExt.rstrip_char]. cbv zeta.
  destruct (Ascii.eqb c "/" && String.eqb (PyStrExt.rstrip_char "/" r) EmptyString) eqn:E;
    [reflexivity|].
  cbn [PyStrExt.endswith]. rewrite IH, orb_false_r.
  destruct (String.eqb "/" (String c (PyStrExt.rstrip_char "/" r))) eqn:F; [|reflexivity].
  apply String.eqb_eq in F. injection F as Hc Hr.
  rewrite <- Hc, <- Hr in E. discriminate E.
Qed.

Lemma endswith_split suf s :
  PyStrExt.endswith suf s = true -> exists b, s = (b ++ suf)%string.
Proof.
  induction s as [|c r IH]; simpl.
  - rewrite orb_false_r. intros E. apply String.eqb_eq in E. subst. exists EmptyString. reflexivity.
  - destruct (String.eqb suf (String c r)) eqn:E; simpl.
    + intros _. apply String.eqb_eq in E. rewrite E. exists EmptyString. reflexivity.
    + intros H. destruct (IH H) as [b ->]. exists (String c b). reflexivity.
Qed.

Lemma str_append_assoc (a b c : string) : ((a ++ b) ++ c = a ++ (b ++ c))%string.
Proof. induction a as [|x a IH]; simpl; [reflexivity|rewrite IH; reflexivity]. Qed.

End StrFacts.

(** ** Facts about [OllamaLocalHandler] *)
Module OllamaFacts.
Import PyDict Json OllamaLocal DictFacts FactoryFacts.



Lemma filter_step_ok acc m :
  filter_step (Ok acc) m =
  match role_of m with
  | Ok r => if existsb (String.eqb r) allowed_roles
            then if len_fails (PyDictExt.get m "content" (PStr EmptyString))
                 then Raise TypeError_op
                 else Ok (acc ++ [{| o_role := r;
                                     o_content := PyDictExt.get m "content" (PStr EmptyString) |}])%list
            else Ok acc
  | Raise e => Raise e
  end.
Proof. reflexivity. Qed.

Lemma fold_filter_raise l e :
  fold_left filter_step l (Raise e) = Raise e.
Proof. induction l as [|m l IH]; simpl; [reflexivity|exact IH]. Qed.





Lemma fold_filter_ok l acc out :
  fold_left filter_step l (Ok acc) = Ok out ->
  exists new, out = (acc ++ new)%list /\
    (forall o, In o new -> In (o_role o) allowed_roles /\ len_fails (o_content o) = false) /\
    (length new <= length l)%nat.
Proof.
  revert acc. induction l as [|m l IH]; cbn [fold_left]; intros acc H.
  - injection H as <-. exists []. rewrite app_nil_r. simpl. split; [reflexivity|split; [tauto|lia]].
  - rewrite filter_step_ok in H.
    destruct (role_of m) as [r|e] eqn:R;
      [|rewrite fold_filter_raise in H; discriminate].
    destruct (existsb (String.eqb r) allowed_roles) eqn:A.
    + destruct (len_fails (PyDictExt.get m "content" (PStr EmptyString))) eqn:L;
        [rewrite fold_filter_raise in H; discriminate|].
      destruct (IH _ H) as [new [-> [Hr Hl]]].
      exists ({| o_role := r; o_content := PyDictExt.get m "content" (PStr EmptyString) |} :: new).
      rewrite <- app_assoc. split; [reflexivity|]. split; [|simpl; lia].
      intros o [<-|Ho]; [|apply Hr, Ho]. cbn [o_role o_content]. split; [|exact L].
      apply existsb_exists in A. destruct A as [x [Hx E]].
      apply String.eqb_eq in E. subst. exact Hx.
    + destruct (IH _ H) as [new [-> [Hr Hl]]].
      exists new. split; [reflexivity|split; [exact Hr|simpl; lia]].
Qed.

Lemma filter_step_omsg acc o :
  In (o_role o) allowed_roles -> len_fails (o_content o) = false ->
  filter_step (Ok acc) (omsg_dict o) = Ok (acc ++ [o])%list.
Proof.
  destruct o as [r c]. cbn [o_role o_content]. intros Hr Hc.
  assert (E : role_of (omsg_dict {| o_role := r; o_content := c |}) = Ok r)
    by (destruct Hr as [<-|[<-|[<-|[]]]]; reflexivity).
  assert (A : existsb (String.eqb r) allowed_roles = true)
    by (destruct Hr as [<-|[<-|[<-|[]]]]; reflexivity).
  rewrite filter_step_ok, E, A.
  change (PyDictExt.get (omsg_dict {| o_role := r; o_content := c |}) "content"
            (PStr EmptyString)) with c.
  rewrite Hc. reflexivity.
Qed.

Lemma fold_filter_omsgs out acc :
  (forall o, In o out -> In (o_role o) allowed_roles /\ len_fails (o_content o) = false) ->
  fold_left filter_step (map omsg_dict out) (Ok acc) = Ok (acc ++ out)%list.
Proof.
  revert acc. induction out as [|o out IH]; cbn [map fold_left]; intros acc H.
  - rewrite app_nil_r. reflexivity.
  - rewrite filter_step_omsg by (apply H; left; reflexivity).
    rewrite IH by (intros; apply H; right; assumption).
    rewrite <- app_assoc. reflexivity.
Qed.

(** The options loop never produces the key [max_tokens]. *)
Lemma options_fold_no_max_tokens (final l : dict pyval) acc :
  lookup acc "max_tokens" = None ->
  lookup (fold_left
    (fun opts kv =>
       let param := if String.eqb (fst kv) "max_tokens"
                       && negb (mem "num_predict" final)
                    then "num_predict" else fst kv in
       if existsb (String.eqb param) valid_options && negb (is_none (snd kv))
       then insert param (snd kv) opts else opts) l acc) "max_tokens" = None.
Proof.
  revert acc. induction l as [|[k v] l IH]; cbn [fold_left]; intros acc H; [exact H|].
  apply IH. cbv zeta. cbn [fst snd].
  set (param := if String.eqb k "max_tokens" && negb (mem "num_predict" final)
                then "num_predict" else k).
  destruct (existsb (String.eqb param) valid_options && negb (is_none v)) eqn:Ok';
    [|exact H].
  rewrite lookup_insert. destruct (String.eqb "max_tokens" param) eqn:E; [|exact H].
  apply String.eqb_eq in E. rewrite <- E in Ok'. discriminate.
Qed.


Lemma init_params cfg env0 h :
  init cfg env0 = Ok h ->
  wf (default_api_params h) /\
  lookup (default_api_params h) "num_predict" = None /\
  exists z, lookup (default_api_params h) "max_tokens" = Some (PInt z).
Proof.
  unfold init. cbv zeta.
  destruct (if py_truthy _ then _ else _) as [| | | | | |e]; try discriminate.
  intros H. injection H as <-. simpl.
  destruct (env_float env0 "OLLAMA_TEMPERATURE"), (env_int env0 "OLLAMA_MAX_TOKENS"),
    (env_float env0 "OLLAMA_TOP_P"); simpl;
    (split; [unfold wf; simpl; repeat constructor; simpl; intuition discriminate
            |split; [reflexivity|eexists; reflexivity]]).
Qed.


End OllamaFacts.
(** ** Facts about the Deepseek and report handlers *)
Module ModelFacts.
Import PyDict Json DeepseekModels.




End ModelFacts.

Module ReportFacts.
Import PyDict Json OllamaLocal OllamaReport.

Lemma chat_after_payload h messages model kwargs p t :
  OllamaReport.chat_payload h messages model kwargs = Ok p ->
  OllamaReport.chat h messages model kwargs t =
  match (r <- make_request_once (t p 1%nat) ;; response_of (rp_model p) r) with
  | Ok r => (1%nat, Ok r)
  | Raise (APIError _ as e) | Raise (APIErrorFrom _ _ as e) => (1%nat, Raise e)
  | Raise e =>
      (1%nat, Raise (Errors.construct "APIError"
                       ["message"; "provider_name"; "details"]
                       (APIErrorFrom "Ollama Report Handler chat failed: " e)))
  end.
Proof.
  intros Hp. unfold OllamaReport.chat. rewrite Hp. unfold _make_request.
  rewrite HandlerFacts.retrying_is_retryable_once. reflexivity.
Qed.

(** The options of the report payload, for any three values when the
    middle one is not [None]. *)
Lemma report_filter_shape (a b c : pyval) :
  is_none b = false ->
  let l := filter (fun kv => negb (is_none (snd kv)))
             [("temperature", a); ("num_predict", b); ("top_p", c)] in
  match l with [] => None | _ => Some l end = Some l /\
  lookup l "num_predict" = Some b /\
  forall k v, lookup l k = Some v ->
    In k ["temperature"; "num_predict"; "top_p"] /\ v <> PNone.
Proof.
  intros Hb. cbv zeta. cbn [filter snd]. rewrite Hb. cbn [negb].
  destruct (is_none a) eqn:Ha, (is_none c) eqn:Hc; cbn [negb];
    (split; [reflexivity|split; [reflexivity|]]);
    intros k v; cbn [lookup];
    repeat match goal with
           | |- context [String.eqb k ?x] =>
               let E := fresh "E" in
               destruct (String.eqb k x) eqn:E;
                 [apply String.eqb_eq in E; subst k|]
           end;
    try discriminate;
    intros H; injection H as <-;
    (split; [simpl; tauto|intros ->; discriminate]).
Qed.

End ReportFacts.
(** * Further properties of the code *)

Module FactoryExtra.
Import PyDict Registry DictFacts RegistryFacts RegistryInv FactoryFacts.

(** X1: [get_handler_for_provider] on an uninitialised registry initialises
    it, raises only the errors of [standardize_provider_name] (an empty or
    an unknown name), and for every name it resolves returns the handler
    class registered under the resolved name: its "no handler class" error
    is never raised. *)
Theorem get_handler_for_provider_resolved w st0 p :
  r_initialized st0 = false ->
  fst (Factory.get_handler_for_provider w st0 p) = initialize_handlers w st0 /\
  (forall e, snd (Factory.get_handler_for_provider w st0 p) = Raise e ->
     snd (standardize_provider_name w (initialize_handlers w st0) p) = Raise e /\
     (e = ValueError "empty provider" \/ e = ValueError "unknown provider")) /\
  (forall sp, snd (standardize_provider_name w (initialize_handlers w st0) p) = Ok sp ->
     exists cls, lookup (r_handlers (initialize_handlers w st0)) sp = Some cls /\
       snd (Factory.get_handler_for_provider w st0 p) = Ok cls).
Proof.
  intros Hi. rewrite (get_handler_for_provider_fresh w st0 p Hi). cbn [fst snd].
  split; [reflexivity|].
  destruct (snd (standardize_provider_name w (initialize_handlers w st0) p))
    as [sp|e] eqn:S.
  - destruct (mem_lookup _ _ (standardize_fresh_mem w st0 p sp Hi S)) as [cls Hc].
    rewrite Hc. split; [discriminate|].
    intros sp' E. injection E as <-. exists cls. split; [exact Hc|reflexivity].
  - split; [|discriminate].
    intros e' E. injection E as <-. split; [reflexivity|].
    exact (standardize_fresh_errors w st0 p e Hi S).
Qed.

Lemma get_handler_for_provider_resolved_witness :
  snd (Factory.get_handler_for_provider (Examples.mk_world None []) empty_registry
         "deepseek") = Ok Deepseek.handler_class /\
  fst (Factory.get_handler_for_provider (Examples.mk_world None []) empty_registry
         "deepseek")
  = initialize_handlers (Examples.mk_world None []) empty_registry.
Proof.
  destruct (get_handler_for_provider_resolved (Examples.mk_world None [])
              empty_registry "deepseek" eq_refl) as [Hf [_ Hok]].
  split; [|exact Hf].
  destruct (Hok "deepseek_ai" ltac:(vm_compute; reflexivity)) as [cls [Hc Hr]].
  rewrite Hr. vm_compute in Hc. injection Hc as <-. reflexivity.
Defined.

(** X2: with a metadata file and an uninitialised registry,
    [APIHandlerFactory.get_handler] raises only the errors of
    [standardize_provider_name]; for every name it resolves it returns the
    outcome of constructing the registered class with the configuration
    built from a metadata entry of the file whose standard name is the
    resolved name (never the [None] of a missing metadata entry). *)
Theorem factory_get_handler_resolved w st0 p es :
  w_meta_file w = Some es -> r_initialized st0 = false ->
  (forall e, snd (factory_get_handler w st0 p) = Raise e ->
     e = ValueError "empty provider" \/ e = ValueError "unknown provider") /\
  (forall sp, snd (standardize_provider_name w (initialize_handlers w st0) p) = Ok sp ->
     exists cls meta,
       lookup (r_handlers (initialize_handlers w st0)) sp = Some cls /\
       standard_name meta = sp /\ In meta es /\
       snd (factory_get_handler w st0 p) = Ok (instantiate cls (build_config w meta sp))).
Proof.
  intros M Hi.
  assert (Hinit : r_initialized (initialize_handlers w st0) = true).
  { unfold initialize_handlers. rewrite Hi, M. reflexivity. }
  destruct (init_inv w st0 Hi) as (_ & I2 & I3 & _).
  unfold factory_get_handler. rewrite Hi, Hinit. cbn [negb].
  rewrite (standardize_fresh w st0 p Hi).
  destruct (if String.eqb p EmptyString then _ else _) as [sp|e] eqn:S.
  - assert (Hs : snd (standardize_provider_name w (initialize_handlers w st0) p) = Ok sp)
      by (rewrite (standardize_fresh w st0 p Hi); exact S).
    pose proof (standardize_fresh_mem w st0 p sp Hi Hs) as Hm.
    destruct (mem_lookup _ _ Hm) as [cls Hc].
    rewrite I3 in Hm. destruct (mem_lookup _ _ Hm) as [meta Hmeta].
    rewrite Hc, Hmeta. cbn [snd]. split; [discriminate|].
    intros sp' E. cbn [snd] in E. injection E as <-.
    exists cls, meta. split; [exact Hc|]. split; [exact (I2 _ _ Hmeta)|].
    split; [|reflexivity].
    destruct (init_meta_origin w st0 sp meta Hi Hmeta) as [_ [es' [M' Hin]]].
    rewrite M in M'. injection M' as <-. exact Hin.
  - cbn [snd]. split; [|discriminate].
    intros e' E. injection E as <-.
    apply (standardize_fresh_errors w st0 p e Hi).
    rewrite (standardize_fresh w st0 p Hi). exact S.
Qed.

Lemma factory_get_handler_resolved_witness :
  exists cls meta,
    standard_name meta = "deepseek_ai" /\
    snd (factory_get_handler (Examples.mk_world None []) empty_registry "DeepSeek")
    = Ok (instantiate cls (build_config (Examples.mk_world None []) meta "deepseek_ai")).
Proof.
  destruct (factory_get_handler_resolved (Examples.mk_world None []) empty_registry
              "DeepSeek" [Examples.deepseek_meta; Examples.silicon_flow_meta]
              eq_refl eq_refl) as [_ Hok].
  destruct (Hok "deepseek_ai" ltac:(vm_compute; reflexivity))
    as [cls [meta [_ [Hn [_ Hr]]]]].
  exists cls, meta. split; [exact Hn|exact Hr].
Defined.

(** X3: on an uninitialised registry, [get_provider_metadata] returns a
    metadata entry exactly when [standardize_provider_name] resolves the
    name; the entry has the resolved standard name and passed the checks of
    [initialize_handlers] (four truthy fields and an importable class). *)
Theorem get_provider_metadata_resolved w st0 p :
  r_initialized st0 = false ->
  match snd (standardize_provider_name w (initialize_handlers w st0) p) with
  | Ok sp => exists m, get_provider_metadata w st0 p = Some m /\
               standard_name m = sp /\ registered w m = true
  | Raise _ => get_provider_metadata w st0 p = None
  end.
Proof.
  intros Hi. destruct (init_inv w st0 Hi) as (_ & I2 & I3 & _).
  unfold get_provider_metadata. rewrite Hi.
  rewrite (standardize_fresh w st0 p Hi). cbn [snd].
  destruct (if String.eqb p EmptyString then _ else _) as [sp|e] eqn:S; [|reflexivity].
  assert (Hs : snd (standardize_provider_name w (initialize_handlers w st0) p) = Ok sp)
    by (rewrite (standardize_fresh w st0 p Hi); exact S).
  pose proof (standardize_fresh_mem w st0 p sp Hi Hs) as Hm.
  rewrite I3 in Hm. destruct (mem_lookup _ _ Hm) as [meta Hmeta].
  exists meta. split; [exact Hmeta|]. split; [exact (I2 _ _ Hmeta)|].
  exact (proj1 (init_meta_origin w st0 sp meta Hi Hmeta)).
Qed.

Lemma get_provider_metadata_resolved_witness :
  get_provider_metadata (Examples.mk_world None []) empty_registry "silicon flow" = None /\
  exists m, get_provider_metadata (Examples.mk_world None []) empty_registry
              "silicon-flow" = Some m /\ standard_name m = "silicon_flow".
Proof.
  pose proof (get_provider_metadata_resolved (Examples.mk_world None []) empty_registry
                "silicon flow" eq_refl) as H1.
  pose proof (get_provider_metadata_resolved (Examples.mk_world None []) empty_registry
                "silicon-flow" eq_refl) as H2.
  vm_compute in H1. split; [exact H1|].
  change (snd (standardize_provider_name (Examples.mk_world None [])
                 (initialize_handlers (Examples.mk_world None []) empty_registry)
                 "silicon-flow")) with (@Ok string "silicon_flow") in H2.
  destruct H2 as [m [Hm [Hn _]]]. exists m. split; [exact Hm|exact Hn].
Defined.

(** X4: on an uninitialised registry, [get_all_provider_metadata] lists
    every provider once (no two entries share a standard name), only
    entries of the metadata file that passed the checks of
    [initialize_handlers], and for every such entry of the file an entry
    with its standard name. *)
Theorem get_all_provider_metadata_fresh w st0 :
  r_initialized st0 = false ->
  let l := snd (Factory.get_all_provider_metadata w st0) in
  NoDup (map standard_name l) /\
  (forall m, In m l -> registered w m = true /\
     exists es, w_meta_file w = Some es /\ In m es) /\
  (forall es e, w_meta_file w = Some es -> In e es -> registered w e = true ->
     exists m, In m l /\ standard_name m = standard_name e).
Proof.
  intros Hi. destruct (init_inv w st0 Hi) as (_ & I2 & I3 & I4).
  unfold Factory.get_all_provider_metadata. rewrite Hi. cbv zeta. cbn [snd].
  set (st := initialize_handlers w st0) in *.
  split; [|split].
  - rewrite map_map.
    rewrite (map_ext_in (fun x => standard_name (snd x)) fst).
    + exact I4.
    + intros [k m] Hin. cbn [fst snd]. apply I2, lookup_in_wf; assumption.
  - intros m Hin. apply in_map_iff in Hin. destruct Hin as [[k m'] [Heq Hin]].
    cbn [snd] in Heq. subst m'.
    apply (init_meta_origin w st0 k m Hi), lookup_in_wf; assumption.
  - intros es e M Hin Hr.
    assert (Hh : r_handlers st = r_handlers (fold_left (register_entry w) es empty_registry)).
    { unfold st, initialize_handlers. rewrite Hi, M. reflexivity. }
    assert (Hm : mem (standard_name e) (r_handlers st) = true).
    { rewrite Hh, fold_handlers. apply orb_true_intro. left.
      apply existsb_exists. exists e. split; [exact Hin|].
      rewrite Hr, String.eqb_refl. reflexivity. }
    rewrite I3 in Hm. destruct (mem_lookup _ _ Hm) as [m Hmeta].
    exists m. split.
    + apply in_map_iff. exists (standard_name e, m). split; [reflexivity|].
      apply lookup_in, Hmeta.
    + exact (I2 _ _ Hmeta).
Qed.

Lemma get_all_provider_metadata_fresh_witness :
  NoDup (map standard_name
           (snd (Factory.get_all_provider_metadata (Examples.mk_world None []) empty_registry))).
Proof.
  exact (proj1 (get_all_provider_metadata_fresh (Examples.mk_world None []) empty_registry
                  eq_refl)).
Defined.





(** X7: the configuration built for a provider always maps
    [provider_name] to the standard name, and every other key of it starts
    with the metadata's [env_prefix]; without a prefix it holds
    [provider_name] only. *)
Theorem build_config_keys w meta sn :
  lookup (build_config w meta sn) "provider_name" = Some (PStr sn) /\
  forall k v, lookup (build_config w meta sn) k = Some v -> k <> "provider_name" ->
    truthy (env_prefix meta) = true /\ PyStr.startswith (env_prefix meta) k = true.
Proof.
  unfold build_config. split.
  - rewrite lookup_insert, String.eqb_refl. reflexivity.
  - intros k v H Hk. rewrite lookup_insert in H.
    destruct (String.eqb k "provider_name") eqn:E;
      [apply String.eqb_eq in E; contradiction|].
    destruct (truthy (env_prefix meta)) eqn:T; [|discriminate].
    split; [reflexivity|]. exact (prefixed_config_keys _ _ _ _ H).
Qed.

End FactoryExtra.

Module ParamExtra.
Import PyDict Registry Base.



End ParamExtra.

Module OllamaExtra.
Import PyDict Json OllamaLocal DictFacts FactoryFacts OllamaFacts.


(** X10: every message [_filter_messages] keeps has role [system],
    [user] or [assistant] (lowercased), it keeps at most as many messages
    as it is given, and filtering its output again gives the same output. *)
Theorem filter_messages_output msgs out :
  _filter_messages msgs = Ok out ->
  (forall o, In o out -> In (o_role o) allowed_roles) /\
  (length out <= length msgs)%nat /\
  _filter_messages (map omsg_dict out) = Ok out.
Proof.
  unfold _filter_messages. intros H.
  destruct (fold_filter_ok msgs [] out H) as [new [-> [Hr Hl]]].
  cbn [app]. split; [intros o Ho; exact (proj1 (Hr o Ho))|split; [exact Hl|]].
  rewrite fold_filter_omsgs by exact Hr. reflexivity.
Qed.

Lemma filter_messages_output_witness :
  _filter_messages
    (map omsg_dict [{| o_role := "user"; o_content := PStr "hi" |}])
  = Ok [{| o_role := "user"; o_content := PStr "hi" |}].
Proof.
  apply (filter_messages_output
           [[("role", PStr "User"); ("content", PStr "hi")];
            [("role", PStr "tool"); ("content", PStr "x")]]
           [{| o_role := "user"; o_content := PStr "hi" |}]).
  vm_compute. reflexivity.
Defined.

(** X11: a payload that [OllamaLocalHandler.chat] builds has a non-empty
    model name, at least one message, only messages with an allowed role
    and a string content, and no [max_tokens] option. *)
Theorem chat_payload_shape h environ messages model kwargs p :
  chat_payload h environ messages model kwargs = Ok p ->
  Registry.truthy (p_model p) = true /\ p_messages p <> [] /\
  (forall o, In o (p_messages p) ->
     In (o_role o) allowed_roles /\ exists s, o_content o = PStr s) /\
  lookup (p_options p) "max_tokens" = None.
Proof.
  unfold chat_payload.
  destruct (Stream.target_model model (default_model h)) as [tm|]; cbn [PyJson.bind];
    [|discriminate].
  destruct (Registry.truthy tm) eqn:T; cbn [negb]; [|discriminate].
  destruct (_filter_messages messages) as [f|] eqn:F; cbn [PyJson.bind]; [|discriminate].
  destruct (forallb preview_ok (match f with [] => _ | _ => f end)) eqn:Pv;
    cbn [negb]; [|discriminate].
  intros E. injection E as <-. cbn [p_model p_messages p_options].
  split; [exact T|]. split; [destruct f; discriminate|]. split.
  - intros o Hin. split.
    + destruct f as [|o1 f].
      * destruct Hin as [<-|[]]. simpl. tauto.
      * exact (proj1 (filter_messages_output messages _ F) o Hin).
    + pose proof (proj1 (forallb_forall _ _) Pv o Hin) as Ho.
      unfold preview_ok in Ho. destruct (o_content o); try discriminate. eauto.
  - unfold options_of. apply options_fold_no_max_tokens. reflexivity.
Qed.

Lemma chat_payload_shape_witness :
  lookup (p_options
            {| p_model := "deepseek-r1:8b";
               p_messages := [{| o_role := "user"; o_content := PStr "Hello" |}];
               p_options := [("temperature", PFloat (7 # 10)); ("top_p", PFloat 1);
                             ("num_predict", PInt 16000)] |}) "max_tokens" = None.
Proof.
  apply (chat_payload_shape ExtraExamples.ollama_handler [] [] None []).
  vm_compute. reflexivity.
Defined.



(** X13: once its payload is built, [OllamaLocalHandler.chat] makes
    exactly one request attempt whatever the transport does (no retry on a
    connection error or a timeout), and every exception it then raises is
    [APIConnectionError]. *)
Theorem chat_one_attempt_connection_error h environ messages model kwargs p t :
  chat_payload h environ messages model kwargs = Ok p ->
  fst (chat h environ messages model kwargs t) = 1%nat /\
  forall e, snd (chat h environ messages model kwargs t) = Raise e -> e = APIConnectionError.
Proof.
  intros Hp. unfold chat. rewrite Hp. unfold _make_request.
  rewrite HandlerFacts.retrying_is_retryable_once.
  destruct (_ <- _ ;; _) as [r|e']; cbn [fst snd].
  - split; [reflexivity|discriminate].
  - split; [reflexivity|]. intros e E. injection E as <-. reflexivity.
Qed.

Lemma chat_one_attempt_connection_error_witness :
  chat ExtraExamples.ollama_handler [] [] None []
    (fun _ _ => Deepseek.HResponse 500 EmptyString) = (1%nat, Raise APIConnectionError).
Proof.
  destruct (chat_one_attempt_connection_error ExtraExamples.ollama_handler [] [] None []
              {| p_model := "deepseek-r1:8b";
                 p_messages := [{| o_role := "user"; o_content := PStr "Hello" |}];
                 p_options := [("temperature", PFloat (7 # 10)); ("top_p", PFloat 1);
                               ("num_predict", PInt 16000)] |}
              (fun _ _ => Deepseek.HResponse 500 EmptyString)
              ltac:(vm_compute; reflexivity)) as [_ _].
  vm_compute. reflexivity.
Defined.

(** X14: when [_filter_messages] keeps a message whose content is not a
    string, [OllamaLocalHandler.chat] raises [TypeError] (from taking a
    preview of the content for the log) before any request is made. *)
Theorem chat_non_string_content h environ messages model kwargs tm out o t :
  Stream.target_model model (default_model h) = Ok tm -> Registry.truthy tm = true ->
  _filter_messages messages = Ok out -> In o out -> (forall s, o_content o <> PStr s) ->
  chat h environ messages model kwargs t = (0%nat, Raise TypeError_op).
Proof.
  intros Htm Ht Hf Hin Ho. unfold chat, chat_payload. rewrite Htm. cbn [PyJson.bind].
  rewrite Ht. cbn [negb]. rewrite Hf. cbn [PyJson.bind].
  destruct out as [|o1 out']; [destruct Hin|].
  replace (forallb preview_ok (o1 :: out')) with false; [reflexivity|].
  symmetry. apply not_true_iff_false. intros Hall.
  pose proof (proj1 (forallb_forall _ _) Hall o Hin) as Hp.
  unfold preview_ok in Hp. destruct (o_content o) eqn:C; try discriminate.
  exact (Ho s eq_refl).
Qed.

Lemma chat_non_string_content_witness :
  chat ExtraExamples.ollama_handler [] [[("role", PStr "user"); ("content", PNone)]]
    None [] (fun _ _ => Deepseek.HResponse 200 EmptyString)
  = (0%nat, Raise TypeError_op).
Proof.
  apply (chat_non_string_content ExtraExamples.ollama_handler [] _ None []
           "deepseek-r1:8b" [{| o_role := "user"; o_content := PNone |}]
           {| o_role := "user"; o_content := PNone |});
    [vm_compute; reflexivity|reflexivity|vm_compute; reflexivity|left; reflexivity|].
  intros s. discriminate.
Defined.

(** X15: the endpoint [OllamaLocalHandler.__init__] stores never ends with
    ['/'] (all trailing slashes are removed), and a missing or falsy
    endpoint gives [http://localhost:11434]. *)
Theorem init_endpoint cfg environ h :
  init cfg environ = Ok h ->
  PyStrExt.endswith "/" (endpoint h) = false /\
  (py_truthy (PyDictExt.get cfg "endpoint" (PStr EmptyString)) = false ->
   endpoint h = "http://localhost:11434").
Proof.
  unfold init. cbv zeta.
  destruct (py_truthy (PyDictExt.get cfg "endpoint" (PStr EmptyString))) eqn:T.
  - destruct (PyDictExt.get cfg "endpoint" (PStr EmptyString)) as [| | | | | |e];
      try discriminate.
    intros E. injection E as <-. cbn [endpoint]. split; [|discriminate].
    destruct (PyStrExt.endswith "/" e) eqn:Es; [apply StrFacts.rstrip_char_slash_end|exact Es].
  - intros E. injection E as <-. cbn [endpoint]. split; reflexivity.
Qed.

Lemma init_endpoint_witness :
  PyStrExt.endswith "/" (endpoint
    {| provider_name := "ollama_local"; endpoint := "http://x";
       default_model := PStr "deepseek-r1:8b";
       default_api_params := [("temperature", PFloat (7 # 10)); ("top_p", PFloat 1);
                              ("max_tokens", PInt 16000)];
       request_timeout := PInt 60 |}) = false.
Proof.
  apply (proj1 (init_endpoint [("endpoint", PStr "http://x//")] [] _
                  ltac:(vm_compute; reflexivity))).
Defined.

End OllamaExtra.

Module ReportExtra.
Import PyDict Json OllamaLocal OllamaReport DictFacts ReportFacts.

(** X16: the report payload always carries options, with [num_predict]
    set to the [max_tokens] keyword argument when given, else to the
    handler's default [max_tokens], and to [-1] when that value is [None]
    or missing; every option is [temperature], [num_predict] or [top_p] and
    none is [None]. *)
Theorem report_payload_options h messages model kwargs p :
  wf kwargs -> OllamaReport.chat_payload h messages model kwargs = Ok p ->
  exists opts, rp_options p = Some opts /\
    lookup opts "num_predict" =
      Some (match lookup kwargs "max_tokens" with
            | Some v => if is_none v then PInt (-1) else v
            | None => match lookup (default_api_params h) "max_tokens" with
                      | Some v => if is_none v then PInt (-1) else v
                      | None => PInt (-1)
                      end
            end) /\
    forall k v, lookup opts k = Some v ->
      In k ["temperature"; "num_predict"; "top_p"] /\ v <> PNone.
Proof.
  intros Hkw. unfold OllamaReport.chat_payload.
  destruct (_filter_messages messages) as [msgs|]; cbn [PyJson.bind]; [|discriminate].
  intros E. injection E as <-. cbn [rp_options].
  unfold report_options. cbv zeta.
  rewrite lookup_merge with (k := "max_tokens") by exact Hkw.
  set (b := match match match lookup kwargs "max_tokens" with
                        | Some v => Some v
                        | None => lookup (default_api_params h) "max_tokens"
                        end with Some v => v | None => PNone end with
            | v => if is_none v then PInt (-1) else v end).
  assert (Hb : is_none b = false).
  { unfold b. destruct (match match lookup kwargs "max_tokens" with
                        | Some v => Some v
                        | None => lookup (default_api_params h) "max_tokens"
                        end with Some v => v | None => PNone end) eqn:V; reflexivity. }
  destruct (report_filter_shape
              (match lookup (merge (default_api_params h) kwargs) "temperature" with
               | Some v => v | None => PNone end) b
              (match lookup (merge (default_api_params h) kwargs) "top_p" with
               | Some v => v | None => PNone end) Hb) as [H1 [H2 H3]].
  unfold b in H1, H2, H3.
  eexists. split; [exact H1|]. split; [|exact H3].
  rewrite H2. destruct (lookup kwargs "max_tokens") as [v|]; [reflexivity|].
  destruct (lookup (default_api_params h) "max_tokens"); reflexivity.
Qed.

Lemma report_payload_options_witness :
  exists opts,
    rp_options {| rp_model := PStr "deepseek-r1:8b"; rp_messages := [];
                  rp_options := Some [("temperature", PFloat (7 # 10));
                                      ("num_predict", PInt (-1)); ("top_p", PFloat 1)] |}
    = Some opts /\ lookup opts "num_predict" = Some (PInt (-1)).
Proof.
  destruct (report_payload_options ExtraExamples.ollama_handler [] None
              [("max_tokens", PNone)]
              {| rp_model := PStr "deepseek-r1:8b"; rp_messages := [];
                 rp_options := Some [("temperature", PFloat (7 # 10));
                                     ("num_predict", PInt (-1)); ("top_p", PFloat 1)] |}
              ltac:(repeat constructor; simpl; tauto)
              ltac:(vm_compute; reflexivity)) as [opts [H1 [H2 _]]].
  exists opts. split; [exact H1|exact H2].
Defined.

(** X17: once its payload is built, [OllamaReportHandler.chat] makes
    exactly one request attempt, and every exception it raises is an
    [APIError]: those of the request and of the response handling that are
    not already one are wrapped. *)
Theorem report_chat_errors h messages model kwargs p t :
  OllamaReport.chat_payload h messages model kwargs = Ok p ->
  fst (OllamaReport.chat h messages model kwargs t) = 1%nat /\
  forall e, snd (OllamaReport.chat h messages model kwargs t) = Raise e ->
    (exists m, e = APIError m) \/ (exists pre c, e = APIErrorFrom pre c).
Proof.
  intros Hp. rewrite (chat_after_payload h messages model kwargs p t Hp).
  destruct (_ <- _ ;; _) as [r|e'].
  - split; [reflexivity|discriminate].
  - destruct e'; (split; [reflexivity|]); intros e E; vm_compute in E;
      injection E as <-; eauto.
Qed.

Lemma report_chat_errors_witness :
  OllamaReport.chat ExtraExamples.ollama_handler [] None []
    (fun _ _ => Deepseek.HConnectorError)
  = (1%nat, Raise (APIErrorFrom "Ollama Report Handler chat failed: "
                     (TypeError_kwarg "APIConnectionError" "message"))).
Proof.
  destruct (report_chat_errors ExtraExamples.ollama_handler [] None []
              {| rp_model := PStr "deepseek-r1:8b"; rp_messages := [];
                 rp_options := Some [("temperature", PFloat (7 # 10));
                                     ("num_predict", PInt 16000); ("top_p", PFloat 1)] |}
              (fun _ _ => Deepseek.HConnectorError)
              ltac:(vm_compute; reflexivity)) as [_ _].
  vm_compute. reflexivity.
Defined.





End ReportExtra.

Module DeepseekExtra.
Import PyDict Json Stream DeepseekStream DeepseekModels BaseStatus.



(** X21: with a non-empty model, [DeepseekAIHandler.stream_chat] yields
    nothing and raises: without an API key the wrapped [ConfigurationError];
    with one, the [TypeError] of building [APIConnectionError] with a
    [message] keyword on a connection error, [APITimeoutError] on a
    timeout, and the wrapped [APIResponseError] on a status other than
    200. *)
Theorem stream_chat_errors h m :
  Registry.truthy m = true ->
  (py_truthy (Deepseek.api_key h) = false -> forall t,
     stream_chat h (Some m) t =
     {| yielded := [];
        ends := Raised (APIErrorFrom "Unexpected streaming error: " ConfigurationError) |}) /\
  (py_truthy (Deepseek.api_key h) = true ->
     stream_chat h (Some m) (TOpenFails ClientConnectorError) =
     {| yielded := []; ends := Raised (TypeError_kwarg "APIConnectionError" "message") |} /\
     stream_chat h (Some m) (TOpenFails AsyncTimeoutError) =
     {| yielded := []; ends := Raised APITimeoutError |} /\
     forall status lines tail, status <> 200%Z ->
       stream_chat h (Some m) (TResponse status lines tail) =
       {| yielded := [];
          ends := Raised (APIErrorFrom "Unexpected streaming error: "
                            (APIResponseError status)) |}).
Proof.
  intros Hm. unfold stream_chat. rewrite Hm.
  change (py_truthy (PStr m)) with (Registry.truthy m). rewrite Hm. cbn [negb].
  split.
  - intros Hk t. rewrite Hk. reflexivity.
  - intros Hk. rewrite Hk. cbn [negb]. split; [reflexivity|split; [reflexivity|]].
    intros status lines tail Hs. apply Z.eqb_neq in Hs. rewrite Hs. reflexivity.
Qed.

Lemma stream_chat_errors_witness :
  stream_chat Examples.ds_handler (Some "deepseek-chat") (TResponse 401 [] None) =
  {| yielded := [];
     ends := Raised (APIErrorFrom "Unexpected streaming error: " (APIResponseError 401)) |}.
Proof.
  apply (proj2 (proj2 (proj2 (stream_chat_errors Examples.ds_handler "deepseek-chat" eq_refl)
                         ltac:(vm_compute; reflexivity)))).
  discriminate.
Defined.

(** X22: whatever the configured endpoint, the URL
    [get_available_models] queries ends with [api.deepseek.com/v1/models]. *)
Theorem models_list_endpoint_host ep :
  exists b, models_list_endpoint ep = (b ++ "api.deepseek.com/v1/models")%string.
Proof.
  unfold models_list_endpoint, models_base_url. cbv zeta.
  destruct (PyStrExt.endswith "api.deepseek.com" _) eqn:E.
  - destruct (StrFacts.endswith_split _ _ E) as [b ->].
    exists b. rewrite StrFacts.str_append_assoc. reflexivity.
  - exists "https://". reflexivity.
Qed.

(** X23: for a string endpoint, [get_available_models] returns [[]]
    without an API key, on an HTTP status other than 200, on another client
    error, and on a decoded body that is not an object; a connection error
    or undecodable JSON raise the [TypeError] of building the exception
    with keywords its class does not accept, and a timeout raises
    [APITimeoutError]. *)
Theorem get_available_models_outcomes h g ep :
  Deepseek.endpoint h = PStr ep ->
  (py_truthy (Deepseek.api_key h) = false -> get_available_models h g = Ok []) /\
  (py_truthy (Deepseek.api_key h) = true ->
   (forall status text, status <> 200%Z ->
      g (models_list_endpoint ep) = Deepseek.HResponse status text ->
      get_available_models h g = Ok []) /\
   (g (models_list_endpoint ep) = Deepseek.HClientError -> get_available_models h g = Ok []) /\
   (g (models_list_endpoint ep) = Deepseek.HConnectorError ->
      get_available_models h g = Raise (TypeError_kwarg "APIConnectionError" "message")) /\
   (g (models_list_endpoint ep) = Deepseek.HTimeout ->
      get_available_models h g = Raise APITimeoutError) /\
   (forall text, g (models_list_endpoint ep) = Deepseek.HResponse 200 text ->
      json_loads text = None ->
      get_available_models h g = Raise (TypeError_kwarg "APIResponseFormatError" "message")) /\
   (forall text data, g (models_list_endpoint ep) = Deepseek.HResponse 200 text ->
      json_loads text = Some data -> (forall l, data <> JObj l) ->
      get_available_models h g = Ok [])).
Proof.
  intros He. unfold get_available_models. rewrite He. cbv zeta. split.
  - intros Hk. rewrite Hk. reflexivity.
  - intros Hk. rewrite Hk. cbn [negb].
    split; [|split; [|split; [|split; [|split]]]].
    + intros status text Hs Hg. rewrite Hg. apply Z.eqb_neq in Hs. rewrite Hs. reflexivity.
    + intros Hg. rewrite Hg. reflexivity.
    + intros Hg. rewrite Hg. reflexivity.
    + intros Hg. rewrite Hg. reflexivity.
    + intros text Hg Hj. rewrite Hg. rewrite Z.eqb_refl. cbn [negb]. rewrite Hj. reflexivity.
    + intros text data Hg Hj Hd. rewrite Hg. rewrite Z.eqb_refl. cbn [negb]. rewrite Hj.
      destruct data as [| | | | |l]; try reflexivity. exfalso. exact (Hd l eq_refl).
Qed.

Lemma get_available_models_outcomes_witness :
  get_available_models Examples.ds_handler (fun _ => Deepseek.HResponse 401 "denied") = Ok [].
Proof.
  apply (proj1 (proj2 (get_available_models_outcomes Examples.ds_handler
                         (fun _ => Deepseek.HResponse 401 "denied")
                         "https://api.deepseek.com/v1" eq_refl)
                  ltac:(vm_compute; reflexivity)) 401%Z "denied");
    [discriminate|reflexivity].
Defined.



(** X25: composed with [check_status] of a configured provider, a Deepseek
    handler whose models request gets an HTTP error status (a rejected key,
    say) reports [connection_test = "warning"] with 0 models, not
    ["error"]; a connection error reports ["error"]. *)
Theorem check_status_deepseek_models h g ep :
  Deepseek.endpoint h = PStr ep -> py_truthy (Deepseek.api_key h) = true ->
  (forall status text, status <> 200%Z ->
     g (models_list_endpoint ep) = Deepseek.HResponse status text ->
     connection_test (check_status (Some true) (get_available_models h g)) = Some "warning" /\
     models_available (check_status (Some true) (get_available_models h g)) = Some 0%nat) /\
  (g (models_list_endpoint ep) = Deepseek.HConnectorError ->
   connection_test (check_status (Some true) (get_available_models h g)) = Some "error").
Proof.
  intros He Hk.
  destruct (proj2 (get_available_models_outcomes h g ep He) Hk)
    as (Hs & _ & Hc & _).
  split.
  - intros status text Hne Hg. rewrite (Hs status text Hne Hg). split; reflexivity.
  - intros Hg. rewrite (Hc Hg). reflexivity.
Qed.

Lemma check_status_deepseek_models_witness :
  connection_test (check_status (Some true)
    (get_available_models Examples.ds_handler
       (fun _ => Deepseek.HResponse 401 "denied"))) = Some "warning".
Proof.
  apply (proj1 (proj1 (check_status_deepseek_models Examples.ds_handler
                         (fun _ => Deepseek.HResponse 401 "denied")
                         "https://api.deepseek.com/v1" eq_refl
                         ltac:(vm_compute; reflexivity)) 401%Z "denied"
                  ltac:(discriminate) eq_refl)).
Defined.

End DeepseekExtra.
